(** * newtodo backend: quotes and todos over a document store

    A shallow embedding of [backend/index.js].  The file has three layers:

    - the JavaScript values the handlers inspect (request bodies as parsed
      by [express.json()], strings as sequences of UTF-16 code units);
    - the route handlers, written as programs that may [Await] one call on
      a Mongoose model and then answer;
    - a reference semantics of the Mongoose models [Quote] and [Todo] over
      an in-memory document store, and of the Express routing stack. *)

From Stdlib Require Import String Ascii ZArith NArith Lia.
From stdpp Require Import gmap list sorting.

Local Open Scope Z_scope.
#[local] Set Warnings "-register-all".

(** ** JavaScript strings *)

(** A JavaScript string is a sequence of UTF-16 code units. *)
Definition JsString : Type := list N.

(** Embedding of the ASCII literals that occur in the source. *)
Definition js (s : string) : JsString :=
  List.map N_of_ascii (list_ascii_of_string s).

(** [WhiteSpace] and [LineTerminator] code points of ECMAScript, the ones
    [String.prototype.trim] strips. *)
Definition isWhiteSpace (c : N) : bool :=
  ( (c =? 9) || (c =? 10) || (c =? 11) || (c =? 12) || (c =? 13)
 || (c =? 32) || (c =? 160) || (c =? 5760)
 || ((8192 <=? c) && (c <=? 8202))
 || (c =? 8232) || (c =? 8233) || (c =? 8239) || (c =? 8287)
 || (c =? 12288) || (c =? 65279) )%N.

Fixpoint trimStart (s : JsString) : JsString :=
  match s with
  | c :: s' => if isWhiteSpace c then trimStart s' else s
  | [] => []
  end.

Definition trimEnd (s : JsString) : JsString := rev (trimStart (rev s)).

(** [s.trim()] *)
Definition trim (s : JsString) : JsString := trimEnd (trimStart s).

(** ** JavaScript values *)

(** The values [JSON.parse] can produce, plus [undefined] (an absent body
    or property).  A number is given by its rendering, the string
    [Number.prototype.toString] returns for it ("42", "0.5", "1e+21");
    the rendering determines the number up to the sign of zero, which
    nothing here observes. *)
Inductive JsValue : Type :=
| JUndefined
| JNull
| JBool (b : bool)
| JNum (rendering : JsString)
| JStr (s : JsString)
| JArr (elems : list JsValue)
| JObj (props : list (JsString * JsValue)).

Inductive JsType : Type :=
| TypeUndefined | TypeObject | TypeBoolean | TypeNumber | TypeString.

(** [typeof v] *)
Definition typeof (v : JsValue) : JsType :=
  match v with
  | JUndefined => TypeUndefined
  | JNull | JArr _ | JObj _ => TypeObject
  | JBool _ => TypeBoolean
  | JNum _ => TypeNumber
  | JStr _ => TypeString
  end.

(** [ToBoolean v]: what [!v] and [v || w] test. *)
Definition truthy (v : JsValue) : bool :=
  match v with
  | JUndefined | JNull => false
  | JBool b => b
  | JNum r => negb (bool_decide (r = js "0") || bool_decide (r = js "NaN"))
  | JStr s => match s with [] => false | _ => true end
  | JArr _ | JObj _ => true
  end.

(** [a || b] *)
Definition orElse (a b : JsValue) : JsValue := if truthy a then a else b.

(** Own property [k] of a parsed object, [undefined] when it has none.  A
    parsed object holds each name once; the first entry is the one read. *)
Fixpoint assoc (k : JsString) (props : list (JsString * JsValue)) : JsValue :=
  match props with
  | [] => JUndefined
  | (k', v) :: rest => if bool_decide (k = k') then v else assoc k rest
  end.

Inductive JsError : Type :=
| TypeError
| URIError
| CastError
| ValidationError
| MongoNetworkError
| NotFoundError
| RangeError
| SystemError.

(** Result of evaluating an expression: a value or a thrown exception. *)
Inductive Completion (A : Type) : Type :=
| Normal (a : A)
| Throw (e : JsError).
Arguments Normal {A} a.
Arguments Throw {A} e.

(** [v.k] for one of the data property names the handlers read ([text],
    [author], [quotes], [completed]): own property of an object, absent on
    arrays and primitives, a [TypeError] on [undefined] and [null]. *)
Definition getProp (v : JsValue) (k : JsString) : Completion JsValue :=
  match v with
  | JUndefined | JNull => Throw TypeError
  | JObj props => Normal (assoc k props)
  | _ => Normal JUndefined
  end.

(** [v?.k] *)
Definition optProp (v : JsValue) (k : JsString) : JsValue :=
  match getProp v k with
  | Normal x => x
  | Throw _ => JUndefined
  end.

(** [v.trim()]: only strings have the method; on any other (non-nullish)
    value the call is a [TypeError], [trim] not being a function. *)
Definition callTrim (v : JsValue) : Completion JsString :=
  match v with
  | JStr s => Normal (trim s)
  | _ => Throw TypeError
  end.

(** [!s] for a string [s] *)
Definition isEmpty (s : JsString) : bool :=
  match s with [] => true | _ => false end.

#[export] Instance Completion_ret : MRet Completion := @Normal.
#[export] Instance Completion_bind : MBind Completion := fun A B f c =>
  match c with
  | Normal a => f a
  | Throw e => Throw e
  end.

(** ** Documents *)

(** A MongoDB [ObjectId]: twelve bytes, read as a number. *)
Definition ObjectId : Type := N.

(** A document of a collection together with its [_id]. *)
Record Stored (D : Type) : Type := { _id : ObjectId; fields : D }.
Arguments Build_Stored {D} _ _.
Arguments _id {D} _.
Arguments fields {D} _.

(** [quoteSchema], with [timestamps: true]. *)
Module Quote.
Record doc : Type :=
  { text : JsString; author : option JsString; createdAt : Z; updatedAt : Z }.
End Quote.

(** [todoSchema], with [timestamps: true]. *)
Module Todo.
Record doc : Type :=
  { text : JsString; completed : bool; createdAt : Z; updatedAt : Z }.
End Todo.

(** The object literal [{ text: _, author: _ }] handed to the [Quote] model. *)
Record QuoteInput : Type := { in_text : JsValue; in_author : JsValue }.

(** The [updates] object of the PATCH handler: each key present or not. *)
Record Updates : Type :=
  { upd_text : option JsString; upd_completed : option bool }.

(** [Object.keys(updates).length] *)
Definition keysLength (u : Updates) : nat :=
  (length (option_list (upd_text u)) + length (option_list (upd_completed u)))%nat.

(** ** Calls on the Mongoose models *)

Inductive StoreCall : Type -> Type :=
| Quote_aggregate_sample : StoreCall (list (Stored Quote.doc))
    (* Quote.aggregate([{ $sample: { size: 1 } }]) *)
| Quote_insertMany (docs : list QuoteInput) : StoreCall (list (Stored Quote.doc))
| Quote_create (doc : QuoteInput) : StoreCall (Stored Quote.doc)
| Todo_find_sort : StoreCall (list (Stored Todo.doc))
    (* Todo.find().sort({ createdAt: -1 }) *)
| Todo_create (text : JsString) : StoreCall (Stored Todo.doc)
    (* Todo.create({ text }) *)
| Todo_findByIdAndUpdate (id : JsString) (updates : Updates)
    : StoreCall (option (Stored Todo.doc))
    (* with { new: true, runValidators: true } *)
| Todo_findByIdAndDelete (id : JsString) : StoreCall (option (Stored Todo.doc)).

(** A store call made by a handler, with its result type forgotten. *)
Inductive Issued : Type :=
| issue {X : Type} (call : StoreCall X).

(** How an awaited promise settles. *)
Inductive Settled (X : Type) : Type :=
| Fulfilled (x : X)
| Rejected (err : JsError).
Arguments Fulfilled {X} x.
Arguments Rejected {X} err.

(** ** Responses *)

(** Content of a file of the frontend bundle. *)
Definition Asset : Type := JsString.

Inductive Body : Type :=
| Message (message : string)                     (* { message } *)
| Health (timestamp : Z)                          (* { status: 'ok', timestamp } *)
| QuoteJson (d : Stored Quote.doc)
| QuotesJson (ds : list (Stored Quote.doc))
| TodoJson (d : Stored Todo.doc)
| TodosJson (ds : list (Stored Todo.doc))
| Deleted (message : string) (id : JsString)      (* { message, id } *)
| FileBody (content : Asset)
| NoContent
| DefaultPage.                                    (* page of Express's final handler *)

(** What the caller sees: a response, or none because the handler's promise
    rejected with an exception nothing catches. *)
Inductive Reply : Type :=
| Sent (status : Z) (body : Body)
| Unhandled (e : JsError).

(** A line written with [console.error]: by a handler, with a label and
    the exception it caught; or by the framework's final handler, which
    prints the stack of the error it reports. *)
Inductive LogLine : Type :=
| ErrorLine (label : string) (err : JsError)
| StackLine (err : JsError).

(** A finished handler: the lines written with [console.error] and the reply. *)
Record Outcome : Type := { logged : list LogLine; reply : Reply }.

(** [res.status(status).json(body)] *)
Definition respond (status : Z) (body : Body) : Outcome :=
  {| logged := []; reply := Sent status body |}.

(** [console.error(label, err); res.status(500).json({ message })] *)
Definition serverError (label : string) (err : JsError) (message : string) : Outcome :=
  {| logged := [ErrorLine label err]; reply := Sent 500 (Message message) |}.

(** An error handed to the framework's final handler: it answers with the
    status of the error and writes one line to [console.error]. *)
Definition frameworkError (status : Z) (err : JsError) : Outcome :=
  {| logged := [StackLine err]; reply := Sent status DefaultPage |}.

(** A route handler: it answers at once or awaits a store call and goes on
    with the settled result. *)
Inductive Handler : Type :=
| Return (o : Outcome)
| Await {X : Type} (call : StoreCall X) (k : Settled X -> Handler).

(** [try { body } catch (err) { handler }] around the synchronous part. *)
Definition tryCatch (body : Completion Handler) (handler : JsError -> Handler) : Handler :=
  match body with
  | Normal h => h
  | Throw err => handler err
  end.

(** A synchronous exception outside any [try]: the async handler rejects. *)
Definition orReject (body : Completion Handler) : Handler :=
  tryCatch body (fun err => Return {| logged := []; reply := Unhandled err |}).

(** ** Route handlers *)

(** [GET /api/health], with [now] the reading of [new Date()]. *)
Definition get_api_health (now : Z) : Handler :=
  Return (respond 200 (Health now)).

(** [GET /api/quotes/random] *)
Definition get_api_quotes_random : Handler :=
  Await Quote_aggregate_sample (fun settled =>
    match settled with
    | Fulfilled docs =>
        match docs with
        | [] => Return (respond 404 (Message "No quotes found"))
        | doc0 :: _ => Return (respond 200 (QuoteJson doc0))
        end
    | Rejected err =>
        Return (serverError "Failed to fetch random quote:" err
                            "Failed to fetch random quote")
    end).

(** [q => ({ text: q.text, author: q.author })] *)
Definition quoteInputOf (q : JsValue) : Completion QuoteInput :=
  t ← getProp q (js "text");
  a ← getProp q (js "author");
  mret {| in_text := t; in_author := a |}.

(** [POST /api/quotes]: the whole body of the handler is inside [try]. *)
Definition post_api_quotes (body : JsValue) : Handler :=
  let catch err :=
    Return (serverError "Failed to insert quotes:" err "Failed to insert quotes") in
  let created {X} (json : X -> Body) (settled : Settled X) :=
    match settled with
    | Fulfilled result => Return (respond 201 (json result))
    | Rejected err => catch err
    end in
  tryCatch
    (let source := orElse body (JObj []) in
     text ← getProp source (js "text");
     author ← getProp source (js "author");
     quotes ← getProp source (js "quotes");
     match quotes with
     | JArr elems =>
         docs ← mapM quoteInputOf elems;
         mret (Await (Quote_insertMany docs) (created QuotesJson))
     | _ =>
         t ← callTrim (orElse text (JStr []));
         if isEmpty t then mret (Return (respond 400 (Message "Text is required")))
         else mret (Await (Quote_create {| in_text := JStr t; in_author := author |})
                          (created QuoteJson))
     end)
    catch.

(** [GET /api/todos] *)
Definition get_api_todos : Handler :=
  Await Todo_find_sort (fun settled =>
    match settled with
    | Fulfilled todos => Return (respond 200 (TodosJson todos))
    | Rejected err =>
        Return (serverError "Failed to fetch todos:" err "Failed to fetch todos")
    end).

(** [POST /api/todos]: the text is read and trimmed before the [try]. *)
Definition post_api_todos (body : JsValue) : Handler :=
  orReject
    (text ← callTrim (orElse (optProp body (js "text")) (JStr []));
     if isEmpty text then mret (Return (respond 400 (Message "Text is required")))
     else mret (Await (Todo_create text) (fun settled =>
       match settled with
       | Fulfilled todo => Return (respond 201 (TodoJson todo))
       | Rejected err =>
           Return (serverError "Failed to create todo:" err "Failed to create todo")
       end))).

(** The part of the PATCH handler that fills [updates]: [inl] is an early
    [return res.status(400)...], [inr] the finished object. *)
Definition collectUpdates (body : JsValue) : Outcome + Updates :=
  let text := optProp body (js "text") in
  let completed := optProp body (js "completed") in
  let withText : Outcome + option JsString :=
    match text with
    | JStr s =>
        let trimmed := trim s in
        if isEmpty trimmed then inl (respond 400 (Message "Text cannot be empty"))
        else inr (Some trimmed)
    | _ => inr None
    end in
  match withText with
  | inl early => inl early
  | inr t =>
      inr {| upd_text := t;
             upd_completed := match completed with JBool b => Some b | _ => None end |}
  end.

(** [PATCH /api/todos/:id] *)
Definition patch_api_todos_id (id : JsString) (body : JsValue) : Handler :=
  match collectUpdates body with
  | inl early => Return early
  | inr updates =>
      if (keysLength updates =? 0)%nat
      then Return (respond 400 (Message "No valid fields to update"))
      else Await (Todo_findByIdAndUpdate id updates) (fun settled =>
        match settled with
        | Fulfilled None => Return (respond 404 (Message "Todo not found"))
        | Fulfilled (Some todo) => Return (respond 200 (TodoJson todo))
        | Rejected err =>
            Return (serverError "Failed to update todo:" err "Failed to update todo")
        end)
  end.

(** [DELETE /api/todos/:id] *)
Definition delete_api_todos_id (id : JsString) : Handler :=
  Await (Todo_findByIdAndDelete id) (fun settled =>
    match settled with
    | Fulfilled None => Return (respond 404 (Message "Todo not found"))
    | Fulfilled (Some _) => Return (respond 200 (Deleted "Todo deleted" id))
    | Rejected err =>
        Return (serverError "Failed to delete todo:" err "Failed to delete todo")
    end).

(** ** Reference semantics of the Mongoose models *)

(** The two collections, each keyed by [_id]. *)
Record Db : Type :=
  { quotes : gmap ObjectId Quote.doc; todos : gmap ObjectId Todo.doc }.

(** What a store call reads from its surroundings: the clock (milliseconds),
    the randomness [$sample] draws on, and whether the connection opened at
    startup is still usable. *)
Record Env : Type := { now : Z; entropy : nat; connected : bool }.

Definition hexDigit (c : N) : option N :=
  if ((48 <=? c) && (c <=? 57))%N then Some (c - 48)%N
  else if ((97 <=? c) && (c <=? 102))%N then Some (c - 87)%N
  else if ((65 <=? c) && (c <=? 70))%N then Some (c - 55)%N
  else None.

Fixpoint hexValue (acc : N) (s : JsString) : option N :=
  match s with
  | [] => Some acc
  | c :: s' =>
      match hexDigit c with
      | Some d => hexValue (16 * acc + d)%N s'
      | None => None
      end
  end.

(** Cast of a route parameter to [ObjectId]: a string of 24 hexadecimal
    digits; anything else is a [CastError]. *)
Definition castObjectId (id : JsString) : option ObjectId :=
  if (length id =? 24)%nat then hexValue 0%N id else None.

(** Cast to the schema type [String]: [null]/[undefined] stay absent,
    strings are kept, a number or boolean becomes what its [toString()]
    returns (for a number, its rendering), an object stands for its
    non-empty string [_id], and every other array or object fails the
    cast. *)
Definition castString (v : JsValue) : Completion (option JsString) :=
  match v with
  | JUndefined | JNull => Normal None
  | JStr s => Normal (Some s)
  | JNum rendering => Normal (Some rendering)
  | JBool b => Normal (Some (js (if b then "true" else "false")))
  | JArr _ => Throw CastError
  | JObj props =>
      match assoc (js "_id") props with
      | JStr (c :: s) => Normal (Some (c :: s))
      | _ => Throw CastError
      end
  end.

(** A path declared [{ type: String, trim: true }]. *)
Definition castTrimmed (v : JsValue) : Completion (option JsString) :=
  match castString v with
  | Normal s => Normal (trim <$> s)
  | Throw e => Throw e
  end.

(** The [required] validator of a string path: present and non-empty. *)
Definition required (s : option JsString) : Completion JsString :=
  match s with
  | Some (c :: s') => Normal (c :: s')
  | _ => Throw ValidationError
  end.

(** Cast and validation of a new quote against [quoteSchema]; a failed
    cast surfaces as a validation error too. *)
Definition validateQuote (q : QuoteInput) : Completion (JsString * option JsString) :=
  match castTrimmed (in_text q), castTrimmed (in_author q) with
  | Normal t, Normal a =>
      match required t with
      | Normal t' => Normal (t', a)
      | Throw e => Throw e
      end
  | _, _ => Throw ValidationError
  end.

(** Cast and validation of a todo text against [todoSchema]. *)
Definition validateTodoText (text : JsString) : Completion JsString :=
  required (Some (trim text)).

Definition stored {D} (m : gmap ObjectId D) : list (Stored D) :=
  (fun kv => Build_Stored kv.1 kv.2) <$> map_to_list m.

(** [$sample: { size: 1 }]: nothing from an empty collection, otherwise
    one document, chosen by the randomness of the call. *)
Definition sample1 {D} (entropy : nat) (docs : list D) : list D :=
  match docs with
  | [] => []
  | _ => option_list (docs !! (entropy mod length docs)%nat)
  end.

(** Order of [sort({ createdAt: -1 })]. *)
Definition newerFirst (a b : Stored Todo.doc) : Prop :=
  Todo.createdAt (fields b) <= Todo.createdAt (fields a).

#[export] Instance newerFirst_dec : RelDecision newerFirst :=
  fun a b => Z_le_dec (Todo.createdAt (fields b)) (Todo.createdAt (fields a)).

(** A new document gets an [_id] no document of its collection has, and
    both timestamps set to the time of the write. *)
Definition insertQuote (t : Z) (q : JsString * option JsString)
    (m : gmap ObjectId Quote.doc) : Stored Quote.doc * gmap ObjectId Quote.doc :=
  let id := fresh (dom m) in
  let d := {| Quote.text := q.1; Quote.author := q.2;
              Quote.createdAt := t; Quote.updatedAt := t |} in
  (Build_Stored id d, <[id := d]> m).

Fixpoint insertQuotes (t : Z) (qs : list (JsString * option JsString))
    (m : gmap ObjectId Quote.doc) : list (Stored Quote.doc) * gmap ObjectId Quote.doc :=
  match qs with
  | [] => ([], m)
  | q :: qs' =>
      let '(d, m1) := insertQuote t q m in
      let '(ds, m2) := insertQuotes t qs' m1 in
      (d :: ds, m2)
  end.

Definition insertTodo (t : Z) (text : JsString)
    (m : gmap ObjectId Todo.doc) : Stored Todo.doc * gmap ObjectId Todo.doc :=
  let id := fresh (dom m) in
  let d := {| Todo.text := text; Todo.completed := false;
              Todo.createdAt := t; Todo.updatedAt := t |} in
  (Build_Stored id d, <[id := d]> m).

(** [$set] of the given keys, with [updatedAt] maintained by the schema. *)
Definition applyUpdates (t : Z) (text : option JsString) (completed : option bool)
    (d : Todo.doc) : Todo.doc :=
  {| Todo.text := default (Todo.text d) text;
     Todo.completed := default (Todo.completed d) completed;
     Todo.createdAt := Todo.createdAt d;
     Todo.updatedAt := t |}.

Definition offline {X} (db : Db) : Settled X * Db :=
  (Rejected MongoNetworkError, db).

(** A [text] key of an update goes through the schema's [trim] setter and,
    with [runValidators], its [required] validator. *)
Definition validateUpdateText (text : option JsString) : Completion (option JsString) :=
  match text with
  | None => Normal None
  | Some s =>
      match validateTodoText s with
      | Normal s' => Normal (Some s')
      | Throw e => Throw e
      end
  end.

(** One call on a model.  Casting and validation happen in the model,
    before the database is contacted; [insertMany] validates every
    document first and writes nothing if one fails, and has nothing to
    send for an empty array. *)
Definition exec {X} (c : StoreCall X) (env : Env) (db : Db) : Settled X * Db :=
  match c in StoreCall X return Settled X * Db with
  | Quote_aggregate_sample =>
      if connected env
      then (Fulfilled (sample1 (entropy env) (stored (quotes db))), db)
      else offline db
  | Quote_insertMany docs =>
      match mapM validateQuote docs with
      | Throw e => (Rejected e, db)
      | Normal [] => (Fulfilled [], db)
      | Normal qs =>
          if connected env
          then let '(ds, m) := insertQuotes (now env) qs (quotes db) in
               (Fulfilled ds, {| quotes := m; todos := todos db |})
          else offline db
      end
  | Quote_create doc =>
      match validateQuote doc with
      | Throw e => (Rejected e, db)
      | Normal q =>
          if connected env
          then let '(d, m) := insertQuote (now env) q (quotes db) in
               (Fulfilled d, {| quotes := m; todos := todos db |})
          else offline db
      end
  | Todo_find_sort =>
      if connected env
      then (Fulfilled (merge_sort newerFirst (stored (todos db))), db)
      else offline db
  | Todo_create text =>
      match validateTodoText text with
      | Throw e => (Rejected e, db)
      | Normal text' =>
          if connected env
          then let '(d, m) := insertTodo (now env) text' (todos db) in
               (Fulfilled d, {| quotes := quotes db; todos := m |})
          else offline db
      end
  | Todo_findByIdAndUpdate id updates =>
      match castObjectId id, validateUpdateText (upd_text updates) with
      | None, _ => (Rejected CastError, db)
      | Some _, Throw e => (Rejected e, db)
      | Some oid, Normal text =>
          if connected env
          then match todos db !! oid with
               | None => (Fulfilled None, db)
               | Some d =>
                   let d' := applyUpdates (now env) text (upd_completed updates) d in
                   (Fulfilled (Some (Build_Stored oid d')),
                    {| quotes := quotes db; todos := <[oid := d']> (todos db) |})
               end
          else offline db
      end
  | Todo_findByIdAndDelete id =>
      match castObjectId id with
      | None => (Rejected CastError, db)
      | Some oid =>
          if connected env
          then match todos db !! oid with
               | None => (Fulfilled None, db)
               | Some d =>
                   (Fulfilled (Some (Build_Stored oid d)),
                    {| quotes := quotes db; todos := delete oid (todos db) |})
               end
          else offline db
      end
  end.

(** ** Running a handler against the store *)

(** The outcome of a request, the store it leaves behind, and the store
    calls it issued, in order. *)
Record Run : Type := { outcome : Outcome; final : Db; issued : list Issued }.

Fixpoint run (h : Handler) (env : Env) (db : Db) : Run :=
  match h with
  | Return o => {| outcome := o; final := db; issued := [] |}
  | Await call k =>
      let '(settled, db') := exec call env db in
      let rest := run (k settled) env db' in
      {| outcome := outcome rest; final := final rest;
         issued := issue call :: issued rest |}
  end.

(** Status code of a reply, if there is one. *)
Definition statusOf (r : Reply) : option Z :=
  match r with
  | Sent status _ => Some status
  | Unhandled _ => None
  end.

(** Every reply a handler sends after a store call has a status other than
    400: a 400 can only come from the checks made before the call. *)
Definition answersAfterCall (h : Handler) : Prop :=
  match h with
  | Return _ => True
  | Await _ k =>
      forall settled,
        match k settled with
        | Return o => statusOf (reply o) <> Some 400
        | Await _ _ => False
        end
  end.

(** ** The Express stack *)

Inductive Method : Type := GET | HEAD | POST | PUT | PATCH | DELETE | OPTIONS.

#[export] Instance Method_eq_dec : EqDecision Method.
Proof. solve_decision. Defined.

(** A request as the stack sees it once [express.json()] has parsed the
    body: [path] is the path of the URL, without the query string. *)
Record Request : Type := { method : Method; path : JsString; body : JsValue }.

(** What the framework and the frontend bundle contribute: the decoding
    of a path parameter ([None] when the escape sequences are malformed),
    what [express.static] does with a path under [../dist] ([None] when
    it calls [next()]), and [../dist/index.html] if the file exists. *)
Record Framework : Type :=
  { decodeURIComponent : JsString -> option JsString;
    serveStatic : JsString -> option Reply;
    indexHtml : option Asset }.

(** Route paths are compared without regard to the case of ASCII letters. *)
Definition foldCase (s : JsString) : JsString :=
  (fun c => if ((65 <=? c) && (c <=? 90))%N then (c + 32)%N else c) <$> s.

Definition slash : N := 47%N.

(** A fixed route path matches itself, with or without one trailing slash. *)
Definition matchesPath (pattern : string) (p : JsString) : bool :=
  bool_decide (foldCase p = foldCase (js pattern))
  || bool_decide (foldCase p = foldCase (js pattern) ++ [slash]).

(** [prefix/:id]: one non-empty segment after the prefix, with or without
    one trailing slash; the result is the segment as written in the URL. *)
Definition matchesParam (pattern : string) (p : JsString) : option JsString :=
  let n := length (js pattern) in
  if bool_decide (foldCase (take n p) = foldCase (js pattern)) then
    let rest := drop n p in
    let segment :=
      match reverse rest with
      | c :: r => if (c =? slash)%N then reverse r else rest
      | [] => rest
      end in
    if isEmpty segment || bool_decide (slash ∈ segment) then None else Some segment
  else None.

Inductive Route : Type :=
| HealthRoute
| RandomQuoteRoute
| InsertQuotesRoute
| ListTodosRoute
| CreateTodoRoute
| UpdateTodoRoute (segment : JsString)
| DeleteTodoRoute (segment : JsString).

(** [app.get] also answers HEAD. *)
Definition isGet (m : Method) : bool :=
  match m with GET | HEAD => true | _ => false end.

(** The API routes in the order they are registered. *)
Definition apiRoute (m : Method) (p : JsString) : option Route :=
  if isGet m && matchesPath "/api/health" p then Some HealthRoute
  else if isGet m && matchesPath "/api/quotes/random" p then Some RandomQuoteRoute
  else if bool_decide (m = POST) && matchesPath "/api/quotes" p then Some InsertQuotesRoute
  else if isGet m && matchesPath "/api/todos" p then Some ListTodosRoute
  else if bool_decide (m = POST) && matchesPath "/api/todos" p then Some CreateTodoRoute
  else if bool_decide (m = PATCH) then UpdateTodoRoute <$> matchesParam "/api/todos/" p
  else if bool_decide (m = DELETE) then DeleteTodoRoute <$> matchesParam "/api/todos/" p
  else None.

(** A route with an [:id] runs its handler on the decoded parameter; when
    the parameter cannot be decoded the framework reports the [URIError]
    itself, with status 400 and a line on [console.error]. *)
Definition withParam (fw : Framework) (segment : JsString)
    (handler : JsString -> Handler) : Handler :=
  match decodeURIComponent fw segment with
  | Some id => handler id
  | None => Return (frameworkError 400 URIError)
  end.

(** [express.static] followed by [app.get("*")]: only GET and HEAD are
    served; when the file is missing [sendFile] hands its error to the
    final handler, which answers 404.  Any other method reaches the end of
    the stack, where the final handler answers 404 with no error to
    report. *)
Definition frontend (fw : Framework) (m : Method) (p : JsString) : Outcome :=
  if isGet m then
    match serveStatic fw p with
    | Some r => {| logged := []; reply := r |}
    | None =>
        match indexHtml fw with
        | Some content => respond 200 (FileBody content)
        | None => frameworkError 404 NotFoundError
        end
    end
  else respond 404 DefaultPage.

(** The middleware stack from top to bottom.  [cors()] ends every OPTIONS
    request itself with 204. *)
Definition dispatch (fw : Framework) (clock : Z) (req : Request) : Handler :=
  if bool_decide (method req = OPTIONS) then Return (respond 204 NoContent)
  else
    match apiRoute (method req) (path req) with
    | Some HealthRoute => get_api_health clock
    | Some RandomQuoteRoute => get_api_quotes_random
    | Some InsertQuotesRoute => post_api_quotes (body req)
    | Some ListTodosRoute => get_api_todos
    | Some CreateTodoRoute => post_api_todos (body req)
    | Some (UpdateTodoRoute segment) =>
        withParam fw segment (fun id => patch_api_todos_id id (body req))
    | Some (DeleteTodoRoute segment) => withParam fw segment delete_api_todos_id
    | None => Return (frontend fw (method req) (path req))
    end.

Definition app (fw : Framework) (req : Request) (env : Env) (db : Db) : Run :=
  run (dispatch fw (now env) req) env db.

(** ** Configuration and start-up *)

(** The value of an environment variable: a string, or [undefined]. *)
Definition envValue (v : option JsString) : JsValue :=
  match v with
  | Some s => JStr s
  | None => JUndefined
  end.

Definition comma : N := 44%N.

(** [s.split(',')]: the pieces between the commas, at least one. *)
Fixpoint split (s : JsString) : list JsString :=
  match s with
  | [] => [[]]
  | c :: s' =>
      if (c =? comma)%N then [] :: split s'
      else match split s' with
           | piece :: pieces => (c :: piece) :: pieces
           | [] => [[c]]
           end
  end.

(** [allowedOrigins]:
    [(process.env.CLIENT_ORIGINS || '').split(',').map(o => o.trim()).filter(Boolean)] *)
Definition allowedOrigins (CLIENT_ORIGINS : option JsString) : list JsString :=
  let source :=
    match orElse (envValue CLIENT_ORIGINS) (JStr []) with
    | JStr s => s
    | _ => []
    end in
  List.filter (fun origin => truthy (JStr origin)) (trim <$> split source).

(** The [origin] option handed to [cors]. *)
Inductive CorsOrigin : Type :=
| AnyOrigin                          (* the wildcard string *)
| Origins (allowed : list JsString).

(** [allowedOrigins.length ? allowedOrigins : wildcard] *)
Definition corsOrigin (CLIENT_ORIGINS : option JsString) : CorsOrigin :=
  let allowed := allowedOrigins CLIENT_ORIGINS in
  if (length allowed =? 0)%nat then AnyOrigin else Origins allowed.

(** How a call of [app.listen] turns out: the server comes to listen and
    the callback runs; the call itself throws (a port out of range); or
    the call returns and the server then emits an ['error'] event that
    nothing handles (a port in use). *)
Inductive ListenResult : Type :=
| Listens
| ListenThrows (err : JsError)
| ListenFails (err : JsError).

(** What the process finds when it starts: the two environment variables
    as [dotenv.config()] leaves them, whether [mongoose.connect] rejects
    ([None]: it does not), and how [app.listen] turns out. *)
Record Host : Type :=
  { PORT : option JsString;
    MONGO_URI : option JsString;
    connectFails : option JsError;
    listenResult : ListenResult }.

(** What happens while the process starts, in order.  Log lines are given
    by their fixed ASCII text.  [ServerListening] is the server coming to
    listen; [UncaughtException] ends the process with code 1. *)
Inductive BootEvent : Type :=
| ConsoleError (line : string)
| ConsoleLog (line : string)
| ProcessExit (code : Z)
| MongooseConnect (uri : JsString)
| AppListen (port : JsValue)
| ServerListening (port : JsValue)
| UncaughtException (err : JsError).

(** [process.env.PORT || 10000] *)
Definition listenPort (h : Host) : JsValue :=
  orElse (envValue (PORT h)) (JNum (js "10000")).

(** [start()]: connect, then call [listen].  An exception of either call
    is caught, logged and ends the process with [process.exit(1)].  The
    line "Server running" is written by the callback, once the server
    listens; an ['error'] event of the server comes after [start()] has
    returned and is caught by nothing. *)
Definition start (h : Host) (uri : JsString) : list BootEvent :=
  MongooseConnect uri ::
  match connectFails h with
  | Some _ => [ConsoleError "Failed to start server:"; ProcessExit 1]
  | None =>
      ConsoleLog "Connected to MongoDB" ::
      AppListen (listenPort h) ::
      match listenResult h with
      | Listens => [ServerListening (listenPort h); ConsoleLog "Server running on port"]
      | ListenThrows _ => [ConsoleError "Failed to start server:"; ProcessExit 1]
      | ListenFails err => [UncaughtException err]
      end
  end.

(** The module from top to bottom: the check of [MONGO_URI] ends the
    process before anything else runs; otherwise [start()] is called. *)
Definition bootstrap (h : Host) : list BootEvent :=
  if negb (truthy (envValue (MONGO_URI h)))
  then [ConsoleError "Missing MONGO_URI environment variable."; ProcessExit 1]
  else start h (default [] (MONGO_URI h)).

(** The code the process ends with, if start-up ends it: the argument of
    [process.exit], or 1 after an uncaught exception. *)
Definition exitCode (events : list BootEvent) : option Z :=
  match last events with
  | Some (ProcessExit code) => Some code
  | Some (UncaughtException _) => Some 1
  | _ => None
  end.

(** Every stored text is non-empty and already trimmed, and so is every
    stored author. *)
Definition cleanText (s : JsString) : Prop := s <> [] /\ trim s = s.

Definition cleanQuotes (m : gmap ObjectId Quote.doc) : Prop :=
  forall id d, m !! id = Some d ->
    cleanText (Quote.text d) /\ forall a, Quote.author d = Some a -> trim a = a.

Definition wellFormed (db : Db) : Prop :=
  (forall id d, todos db !! id = Some d -> cleanText (Todo.text d))
  /\ cleanQuotes (quotes db).

(** [P] holds of every outcome the handler can end with, however its
    store call settles. *)
Definition allOutcomes (P : Outcome -> Prop) (h : Handler) : Prop :=
  match h with
  | Return o => P o
  | Await _ k =>
      forall settled,
        match k settled with
        | Return o => P o
        | Await _ _ => False
        end
  end.

(** The fixed messages of the 500 responses. *)
Definition genericMessages : list string :=
  [ "Failed to fetch random quote"; "Failed to insert quotes"; "Failed to fetch todos";
    "Failed to create todo"; "Failed to update todo"; "Failed to delete todo" ]%string.

(** A 500 carries one of the fixed messages and comes with exactly one
    [console.error] line; any other outcome has logged nothing. *)
Definition genericOutcome (o : Outcome) : Prop :=
  match reply o with
  | Sent 500 b =>
      exists message label err,
        b = Message message /\ message ∈ genericMessages
        /\ logged o = [ErrorLine label err]
  | _ => logged o = []
  end.

(** The request was answered 200 or 201, or the store is as it was. *)
Definition successOrUnchanged (r : Run) (db : Db) : Prop :=
  final r = db
  \/ statusOf (reply (outcome r)) = Some 200
  \/ statusOf (reply (outcome r)) = Some 201.

(** ** Concrete data used by the examples below *)

Definition emptyDb : Db := {| quotes := ∅; todos := ∅ |}.

Definition online (t : Z) : Env := {| now := t; entropy := 0; connected := true |}.

(** A bundle with an index document and no other asset. *)
Definition bareBundle : Framework :=
  {| decodeURIComponent := Some;
     serveStatic := fun _ => None;
     indexHtml := Some (js "<!doctype html>") |}.

Definition sampleId : JsString := js "65f0c1d2e3a4b5c6d7e8f901".

Definition sampleOid : ObjectId := default 0%N (castObjectId sampleId).

Definition sampleTodo : Todo.doc :=
  {| Todo.text := js "water the plants"; Todo.completed := false;
     Todo.createdAt := 100; Todo.updatedAt := 100 |}.

Definition oneTodoDb : Db := {| quotes := ∅; todos := {[ sampleOid := sampleTodo ]} |}.

Definition sampleQuote : Quote.doc :=
  {| Quote.text := js "Stay hungry"; Quote.author := Some (js "S. Brand");
     Quote.createdAt := 50; Quote.updatedAt := 50 |}.

Definition oneQuoteDb : Db := {| quotes := {[ 7%N := sampleQuote ]}; todos := ∅ |}.

(** An environment whose [$sample] draws with some other randomness. *)
Definition online77 : Env := {| now := 60; entropy := 77; connected := true |}.

(** [{ "text": 5, "completed": "yes" }] *)
Definition noValidFieldsBody : JsValue :=
  JObj [(js "text", JNum (js "5")); (js "completed", JStr (js "yes"))].

(** [{ "text": 42, "completed": true }] *)
Definition numericTextBody : JsValue :=
  JObj [(js "text", JNum (js "42")); (js "completed", JBool true)].

(** [{ "completed": true }] *)
Definition completedBody : JsValue := JObj [(js "completed", JBool true)].

(** [{ "quotes": [] }] *)
Definition emptyBatchBody : JsValue := JObj [(js "quotes", JArr [])].

(** [{ "quotes": [{ "text": "   " }] }] *)
Definition blankBatchBody : JsValue :=
  JObj [(js "quotes", JArr [JObj [(js "text", JStr (js "   "))]])].

(** [{ "text": "   " }] *)
Definition blankTextBody : JsValue := JObj [(js "text", JStr (js "   "))].

(** [{ "text": "  buy milk " }] *)
Definition milkBody : JsValue := JObj [(js "text", JStr (js "  buy milk "))].

(** [{ "text": "first" }] and [{ "text": "second" }] *)
Definition firstBody : JsValue := JObj [(js "text", JStr (js "first"))].
Definition secondBody : JsValue := JObj [(js "text", JStr (js "second"))].


(** [DELETE /api/todos/abc] and [POST /api/todos] with [{ "text": 42, "completed": true }] *)
Definition deleteAbc : Request :=
  {| method := DELETE; path := js "/api/todos/abc"; body := JUndefined |}.
Definition postNumericTodo : Request :=
  {| method := POST; path := js "/api/todos"; body := numericTextBody |}.

(** The outcome is a response. *)
Definition answered (o : Outcome) : Prop := forall e, reply o <> Unhandled e.

(** [{ "text": "   ", "completed": true }] *)
Definition blankAndDoneBody : JsValue :=
  JObj [(js "text", JStr (js "   ")); (js "completed", JBool true)].

(** [{ "quotes": [{ "text": " Know thyself ", "author": "Thales" }, { "text": "Panta rhei" }] }],
    what the handler passes to the model for it, and what the schema makes of that. *)
Definition twoQuotesElems : list JsValue :=
  [JObj [(js "text", JStr (js " Know thyself ")); (js "author", JStr (js "Thales"))];
   JObj [(js "text", JStr (js "Panta rhei"))]].
Definition twoQuotesBody : JsValue := JObj [(js "quotes", JArr twoQuotesElems)].
Definition twoQuotesDocs : list QuoteInput :=
  [{| in_text := JStr (js " Know thyself "); in_author := JStr (js "Thales") |};
   {| in_text := JStr (js "Panta rhei"); in_author := JUndefined |}].
Definition twoQuotesClean : list (JsString * option JsString) :=
  [(js "Know thyself", Some (js "Thales")); (js "Panta rhei", None)].

(** [{ "quotes": [{ "text": "Panta rhei" }, { "text": "  " }] }] *)
Definition mixedBatchElems : list JsValue :=
  [JObj [(js "text", JStr (js "Panta rhei"))]; JObj [(js "text", JStr (js "  "))]].
Definition mixedBatchBody : JsValue := JObj [(js "quotes", JArr mixedBatchElems)].
Definition mixedBatchDocs : list QuoteInput :=
  [{| in_text := JStr (js "Panta rhei"); in_author := JUndefined |};
   {| in_text := JStr (js "  "); in_author := JUndefined |}].

(** [{ "quotes": [{ "text": "Panta rhei" }, null] }] *)
Definition nullBatchElems : list JsValue :=
  [JObj [(js "text", JStr (js "Panta rhei"))]; JNull].
Definition nullBatchBody : JsValue := JObj [(js "quotes", JArr nullBatchElems)].

(** [{ "text": " Know thyself ", "author": " Thales " }] *)
Definition thalesBody : JsValue :=
  JObj [(js "text", JStr (js " Know thyself ")); (js "author", JStr (js " Thales "))].

(** [{ "text": 42 }] and [{ "author": "nobody" }] *)
Definition numberBody : JsValue := JObj [(js "text", JNum (js "42"))].
Definition noTextBody : JsValue := JObj [(js "author", JStr (js "nobody"))].

(** The identifier the first todo of an empty collection gets, as a route
    parameter. *)
Definition zeroId : JsString := js "000000000000000000000000".

(** [origins.join(',')]: a list of origins as it is written in
    [CLIENT_ORIGINS]. *)
Fixpoint joinComma (origins : list JsString) : JsString :=
  match origins with
  | [] => []
  | [o] => o
  | o :: rest => o ++ comma :: joinComma rest
  end.

(** A value fit to be one entry of [CLIENT_ORIGINS]. *)
Definition cleanOrigin (o : JsString) : Prop := o <> [] /\ trim o = o /\ comma ∉ o.

(** [CLIENT_ORIGINS=" https://a.example , ,https://b.example"] *)
Definition twoOriginsVar : option JsString :=
  Some (js " https://a.example , ,https://b.example").

(** A host with everything in place, one without [MONGO_URI], and one
    whose port is taken. *)
Definition goodHost : Host :=
  {| PORT := None; MONGO_URI := Some (js "mongodb://db/quotes");
     connectFails := None; listenResult := Listens |}.
Definition bareHost : Host :=
  {| PORT := Some (js "8080"); MONGO_URI := None;
     connectFails := None; listenResult := Listens |}.
Definition busyPortHost : Host :=
  {| PORT := Some (js "8080"); MONGO_URI := Some (js "mongodb://db/quotes");
     connectFails := None; listenResult := ListenFails SystemError |}.

(** [POST /api/todos] with [{ "text": "  buy milk " }] and [POST /api/quotes]
    with the two quotes above *)
Definition postMilk : Request :=
  {| method := POST; path := js "/api/todos"; body := milkBody |}.
Definition postTwoQuotes : Request :=
  {| method := POST; path := js "/api/quotes"; body := twoQuotesBody |}.

(** * Properties *)

(** ** Trimming *)

Lemma trimStart_head s c r : trimStart s = c :: r -> isWhiteSpace c = false.
Proof.
  induction s as [|x s IH]; simpl; [discriminate|].
  destruct (isWhiteSpace x) eqn:Hx; [exact IH|].
  intros [= <- _]. exact Hx.
Qed.

Lemma trimStart_fixed s :
  (forall c r, s = c :: r -> isWhiteSpace c = false) -> trimStart s = s.
Proof.
  destruct s as [|x s]; simpl; [reflexivity|].
  intros H. rewrite (H x s eq_refl). reflexivity.
Qed.

Lemma trimStart_suffix s : exists pre, s = pre ++ trimStart s.
Proof.
  induction s as [|x s [pre IH]]; simpl.
  - exists []. reflexivity.
  - destruct (isWhiteSpace x).
    + exists (x :: pre). simpl. f_equal. exact IH.
    + exists []. reflexivity.
Qed.

Lemma trimEnd_prefix s : exists suf, s = trimEnd s ++ suf.
Proof.
  unfold trimEnd. destruct (trimStart_suffix (rev s)) as [pre H].
  exists (rev pre). rewrite <- rev_app_distr, <- H, rev_involutive. reflexivity.
Qed.

Lemma trimStart_idem s : trimStart (trimStart s) = trimStart s.
Proof. apply trimStart_fixed. intros c r H. exact (trimStart_head _ _ _ H). Qed.

Lemma trimEnd_idem s : trimEnd (trimEnd s) = trimEnd s.
Proof. unfold trimEnd. rewrite rev_involutive, trimStart_idem. reflexivity. Qed.

Lemma trim_head s c r : trim s = c :: r -> isWhiteSpace c = false.
Proof.
  unfold trim. intros H.
  destruct (trimEnd_prefix (trimStart s)) as [suf Hs].
  rewrite H in Hs. simpl in Hs. exact (trimStart_head _ _ _ Hs).
Qed.

(** Trimming a trimmed string changes nothing. *)
Lemma trim_idem s : trim (trim s) = trim s.
Proof.
  unfold trim at 1.
  rewrite (trimStart_fixed (trim s)) by (intros c r H; exact (trim_head _ _ _ H)).
  unfold trim. apply trimEnd_idem.
Qed.

Lemma isEmpty_false s : s <> [] -> isEmpty s = false.
Proof. destruct s; [congruence | reflexivity]. Qed.

Lemma validateTodoText_trimmed s :
  trim s <> [] -> validateTodoText (trim s) = Normal (trim s).
Proof.
  intros H. unfold validateTodoText. rewrite trim_idem.
  destruct (trim s); [congruence | reflexivity].
Qed.

(** ** PATCH /api/todos/:id *)

(** What [collectUpdates] yields when the text is not a string. *)
Lemma collectUpdates_no_text body :
  typeof (optProp body (js "text")) <> TypeString ->
  collectUpdates body =
    inr {| upd_text := None;
           upd_completed := match optProp body (js "completed") with
                            | JBool b => Some b
                            | _ => None
                            end |}.
Proof.
  intros Htext. unfold collectUpdates.
  destruct (optProp body (js "text")); simpl in Htext; congruence.
Qed.

(** C3: a PATCH whose body has neither a string [text] nor a boolean
    [completed] is answered 400 "No valid fields to update"; the handler
    issues no store call and the store is left as it was. *)
Theorem patch_without_valid_fields env db id body :
  typeof (optProp body (js "text")) <> TypeString ->
  typeof (optProp body (js "completed")) <> TypeBoolean ->
  run (patch_api_todos_id id body) env db =
    {| outcome := respond 400 (Message "No valid fields to update");
       final := db; issued := [] |}.
Proof.
  intros Htext Hcompleted. unfold patch_api_todos_id.
  rewrite (collectUpdates_no_text body Htext).
  destruct (optProp body (js "completed")); simpl in Hcompleted; try congruence;
    reflexivity.
Qed.

Lemma patch_without_valid_fields_witness :
  typeof (optProp noValidFieldsBody (js "text")) <> TypeString /\
  typeof (optProp noValidFieldsBody (js "completed")) <> TypeBoolean /\
  run (patch_api_todos_id sampleId noValidFieldsBody) (online 7) oneTodoDb =
    {| outcome := respond 400 (Message "No valid fields to update");
       final := oneTodoDb; issued := [] |}.
Proof.
  assert (H1 : typeof (optProp noValidFieldsBody (js "text")) <> TypeString)
    by (vm_compute; discriminate).
  assert (H2 : typeof (optProp noValidFieldsBody (js "completed")) <> TypeBoolean)
    by (vm_compute; discriminate).
  split; [exact H1|]. split; [exact H2|].
  exact (patch_without_valid_fields (online 7) oneTodoDb sampleId noValidFieldsBody H1 H2).
Defined.

(** C9: a PATCH whose [text] is not a string and whose [completed] is a
    boolean is not rejected: the one store call carries an update with the
    [completed] key only, the answer is never 400, and on a stored todo
    the update changes [completed] (and [updatedAt]) and keeps the text. *)
Theorem patch_ignores_non_string_text env db id body b :
  typeof (optProp body (js "text")) <> TypeString ->
  optProp body (js "completed") = JBool b ->
  let r := run (patch_api_todos_id id body) env db in
  issued r = [issue (Todo_findByIdAndUpdate id {| upd_text := None; upd_completed := Some b |})]
  /\ statusOf (reply (outcome r)) <> Some 400
  /\ (forall oid d,
        connected env = true -> castObjectId id = Some oid -> todos db !! oid = Some d ->
        let d' := {| Todo.text := Todo.text d; Todo.completed := b;
                     Todo.createdAt := Todo.createdAt d; Todo.updatedAt := now env |} in
        reply (outcome r) = Sent 200 (TodoJson (Build_Stored oid d'))
        /\ final r = {| quotes := quotes db; todos := <[oid := d']> (todos db) |}).
Proof.
  intros Htext Hcompleted. unfold patch_api_todos_id.
  rewrite (collectUpdates_no_text body Htext), Hcompleted.
  cbn -[castObjectId js].
  split; [|split].
  - destruct (castObjectId id) as [oid|];
      [destruct (connected env); [destruct (todos db !! oid)|]|]; reflexivity.
  - destruct (castObjectId id) as [oid|];
      [destruct (connected env); [destruct (todos db !! oid)|]|]; cbn; discriminate.
  - intros oid d Hconn Hid Hd. rewrite Hid, Hconn, Hd. cbn. split; reflexivity.
Qed.

Lemma patch_ignores_non_string_text_witness :
  typeof (optProp numericTextBody (js "text")) <> TypeString /\
  optProp numericTextBody (js "completed") = JBool true /\
  connected (online 250) = true /\
  castObjectId sampleId = Some sampleOid /\
  todos oneTodoDb !! sampleOid = Some sampleTodo /\
  issued (run (patch_api_todos_id sampleId numericTextBody) (online 250) oneTodoDb) =
    [issue (Todo_findByIdAndUpdate sampleId
              {| upd_text := None; upd_completed := Some true |})] /\
  reply (outcome (run (patch_api_todos_id sampleId numericTextBody) (online 250) oneTodoDb)) =
    Sent 200 (TodoJson (Build_Stored sampleOid
      {| Todo.text := js "water the plants"; Todo.completed := true;
         Todo.createdAt := 100; Todo.updatedAt := 250 |})).
Proof.
  assert (H1 : typeof (optProp numericTextBody (js "text")) <> TypeString)
    by (vm_compute; discriminate).
  assert (H2 : optProp numericTextBody (js "completed") = JBool true) by reflexivity.
  assert (H3 : connected (online 250) = true) by reflexivity.
  assert (H4 : castObjectId sampleId = Some sampleOid) by reflexivity.
  assert (H5 : todos oneTodoDb !! sampleOid = Some sampleTodo) by reflexivity.
  destruct (patch_ignores_non_string_text (online 250) oneTodoDb sampleId
              numericTextBody true H1 H2) as (Hissued & _ & Hstored).
  destruct (Hstored sampleOid sampleTodo H3 H4 H5) as [Hreply _].
  repeat (split; [assumption|]). exact Hreply.
Defined.

(** ** POST /api/quotes *)

(** [req.body || {}] has the properties [req.body?.k] reads. *)
Lemma source_prop body k :
  getProp (orElse body (JObj [])) k = Normal (optProp body k).
Proof.
  destruct body as [| |[]|r|[|c s]| |]; try reflexivity.
  unfold orElse. destruct (truthy (JNum r)); reflexivity.
Qed.

(** C10: a POST /api/quotes whose [quotes] is the empty array is answered
    201 with the empty array; [insertMany] is called with no document and
    the store is left as it was. *)
Theorem insert_empty_batch env db body :
  optProp body (js "quotes") = JArr [] ->
  run (post_api_quotes body) env db =
    {| outcome := respond 201 (QuotesJson []); final := db;
       issued := [issue (Quote_insertMany [])] |}.
Proof.
  intros Hq. unfold post_api_quotes.
  rewrite !source_prop, Hq. reflexivity.
Qed.

Lemma insert_empty_batch_witness :
  optProp emptyBatchBody (js "quotes") = JArr [] /\
  run (post_api_quotes emptyBatchBody) (online 5) oneTodoDb =
    {| outcome := respond 201 (QuotesJson []); final := oneTodoDb;
       issued := [issue (Quote_insertMany [])] |}.
Proof.
  assert (H : optProp emptyBatchBody (js "quotes") = JArr []) by reflexivity.
  split; [exact H|].
  exact (insert_empty_batch (online 5) oneTodoDb emptyBatchBody H).
Defined.

(** C2, at the request [{ quotes: [{ text: "   " }] }]: the batch branch
    hands the blank text to [Quote.insertMany] without looking at it, so a
    store call is issued; the model rejects it and the handler answers
    500, where the single-quote branch answers 400 before any call. *)
Theorem batch_blank_text_reaches_store :
  run (post_api_quotes blankBatchBody) (online 5) emptyDb =
    {| outcome := serverError "Failed to insert quotes:" ValidationError
                              "Failed to insert quotes";
       final := emptyDb;
       issued := [issue (Quote_insertMany
                    [{| in_text := JStr (js "   "); in_author := JUndefined |}])] |}
  /\ run (post_api_quotes blankTextBody) (online 5) emptyDb =
    {| outcome := respond 400 (Message "Text is required");
       final := emptyDb; issued := [] |}.
Proof. split; reflexivity. Qed.

(** ** Identifiers the store cannot cast *)

(** C1, as the code has it: neither handler looks at the identifier.  With
    an identifier that is not an [ObjectId], the store call is still made,
    it is rejected, and the [catch] block answers 500 with its fixed
    message: for every DELETE, and for every PATCH whose body passes the
    field checks.  The store is left as it was. *)
Theorem malformed_id_is_server_error env db id :
  castObjectId id = None ->
  (let r := run (delete_api_todos_id id) env db in
   reply (outcome r) = Sent 500 (Message "Failed to delete todo")
   /\ issued r = [issue (Todo_findByIdAndDelete id)]
   /\ final r = db)
  /\ (forall body updates,
        collectUpdates body = inr updates -> keysLength updates <> 0%nat ->
        let r := run (patch_api_todos_id id body) env db in
        reply (outcome r) = Sent 500 (Message "Failed to update todo")
        /\ issued r = [issue (Todo_findByIdAndUpdate id updates)]
        /\ final r = db).
Proof.
  intros Hid. split.
  - cbn -[castObjectId]. rewrite Hid. cbn. repeat split.
  - intros body updates Hupd Hkeys. unfold patch_api_todos_id. rewrite Hupd.
    destruct (keysLength updates =? 0)%nat eqn:Hk.
    + apply Nat.eqb_eq in Hk. contradiction.
    + cbn -[castObjectId]. rewrite Hid. cbn. repeat split.
Qed.

Lemma malformed_id_is_server_error_witness :
  castObjectId (js "abc") = None /\
  collectUpdates completedBody = inr {| upd_text := None; upd_completed := Some true |} /\
  keysLength {| upd_text := None; upd_completed := Some true |} <> 0%nat /\
  reply (outcome (run (delete_api_todos_id (js "abc")) (online 9) oneTodoDb)) =
    Sent 500 (Message "Failed to delete todo") /\
  reply (outcome (run (patch_api_todos_id (js "abc") completedBody) (online 9) oneTodoDb)) =
    Sent 500 (Message "Failed to update todo").
Proof.
  assert (Hid : castObjectId (js "abc") = None) by reflexivity.
  assert (Hupd : collectUpdates completedBody =
                 inr {| upd_text := None; upd_completed := Some true |}) by reflexivity.
  assert (Hkeys : keysLength {| upd_text := None; upd_completed := Some true |} <> 0%nat)
    by (vm_compute; discriminate).
  destruct (malformed_id_is_server_error (online 9) oneTodoDb (js "abc") Hid)
    as [(Hdel & _ & _) Hpatch].
  destruct (Hpatch completedBody _ Hupd Hkeys) as (Hrep & _ & _).
  repeat (split; [assumption|]). exact Hrep.
Defined.

(** C1 as stated fails: [abc] is not an [ObjectId], and DELETE
    /api/todos/abc is answered 500, not 400. *)
Lemma delete_malformed_id_not_400 :
  castObjectId (js "abc") = None /\
  statusOf (reply (outcome (run (delete_api_todos_id (js "abc")) (online 9) oneTodoDb)))
    = Some 500.
Proof. split; reflexivity. Qed.

(** The other case C1 names: [text] truthy and not a string.  The call of
    [trim] throws before the [try] of the handler, so the handler sends no
    response at all and makes no store call. *)
Lemma post_todo_non_string_text env db body :
  typeof (optProp body (js "text")) <> TypeString ->
  truthy (optProp body (js "text")) = true ->
  run (post_api_todos body) env db =
    {| outcome := {| logged := []; reply := Unhandled TypeError |};
       final := db; issued := [] |}.
Proof.
  intros Htype Htruthy. unfold post_api_todos, orElse. rewrite Htruthy.
  destruct (optProp body (js "text")); simpl in Htype; try congruence; reflexivity.
Qed.

(** ** POST /api/todos *)

Lemma fresh_todo_id (m : gmap ObjectId Todo.doc) : m !! fresh (dom m) = None.
Proof. apply not_elem_of_dom, is_fresh. Qed.

Lemma post_api_todos_trims body s :
  optProp body (js "text") = JStr s ->
  callTrim (orElse (optProp body (js "text")) (JStr [])) = Normal (trim s).
Proof. intros ->. destruct s; reflexivity. Qed.

Lemma post_api_todos_blank env db body s :
  optProp body (js "text") = JStr s -> trim s = [] ->
  run (post_api_todos body) env db =
    {| outcome := respond 400 (Message "Text is required"); final := db; issued := [] |}.
Proof.
  intros Htext Hempty. unfold post_api_todos.
  rewrite (post_api_todos_trims body s Htext), Hempty. reflexivity.
Qed.

Lemma post_api_todos_inserts env db body s :
  optProp body (js "text") = JStr s -> trim s <> [] -> connected env = true ->
  exists id,
    todos db !! id = None /\
    run (post_api_todos body) env db =
      {| outcome := respond 201 (TodoJson (Build_Stored id
                      {| Todo.text := trim s; Todo.completed := false;
                         Todo.createdAt := now env; Todo.updatedAt := now env |}));
         final := {| quotes := quotes db;
                     todos := <[id := {| Todo.text := trim s; Todo.completed := false;
                                        Todo.createdAt := now env;
                                        Todo.updatedAt := now env |}]> (todos db) |};
         issued := [issue (Todo_create (trim s))] |}.
Proof.
  intros Htext Hne Hconn. exists (fresh (dom (todos db))).
  split; [apply fresh_todo_id|].
  unfold post_api_todos. rewrite (post_api_todos_trims body s Htext).
  cbn -[trim validateTodoText]. rewrite (isEmpty_false _ Hne).
  cbn -[trim validateTodoText]. rewrite (validateTodoText_trimmed _ Hne), Hconn.
  reflexivity.
Qed.

(** What POST /api/todos does with a string [text]: it answers 400 "Text
    is required" without a store call when the text trims to nothing;
    otherwise (the store being reachable) it inserts one todo under a new
    identifier, with the trimmed text, [completed] false and both
    timestamps set, and answers 201 with that document. *)
Theorem create_todo env db body s :
  optProp body (js "text") = JStr s ->
  (trim s = [] ->
     run (post_api_todos body) env db =
       {| outcome := respond 400 (Message "Text is required");
          final := db; issued := [] |})
  /\ (trim s <> [] -> connected env = true ->
      exists id,
        todos db !! id = None /\
        run (post_api_todos body) env db =
          {| outcome := respond 201 (TodoJson (Build_Stored id
                          {| Todo.text := trim s; Todo.completed := false;
                             Todo.createdAt := now env; Todo.updatedAt := now env |}));
             final := {| quotes := quotes db;
                         todos := <[id := {| Todo.text := trim s; Todo.completed := false;
                                            Todo.createdAt := now env;
                                            Todo.updatedAt := now env |}]> (todos db) |};
             issued := [issue (Todo_create (trim s))] |}).
Proof.
  intros Htext. split.
  - intros Hempty. by apply post_api_todos_blank with s.
  - intros Hne Hconn. by apply post_api_todos_inserts.
Qed.

Lemma create_todo_witness :
  optProp milkBody (js "text") = JStr (js "  buy milk ") /\
  trim (js "  buy milk ") <> [] /\
  connected (online 300) = true /\
  exists id,
    todos oneTodoDb !! id = None /\
    run (post_api_todos milkBody) (online 300) oneTodoDb =
      {| outcome := respond 201 (TodoJson (Build_Stored id
                      {| Todo.text := trim (js "  buy milk "); Todo.completed := false;
                         Todo.createdAt := 300; Todo.updatedAt := 300 |}));
         final := {| quotes := quotes oneTodoDb;
                     todos := <[id := {| Todo.text := trim (js "  buy milk ");
                                        Todo.completed := false;
                                        Todo.createdAt := 300;
                                        Todo.updatedAt := 300 |}]> (todos oneTodoDb) |};
         issued := [issue (Todo_create (trim (js "  buy milk ")))] |}.
Proof.
  assert (H1 : optProp milkBody (js "text") = JStr (js "  buy milk ")) by reflexivity.
  assert (H2 : trim (js "  buy milk ") <> []) by (vm_compute; discriminate).
  assert (H3 : connected (online 300) = true) by reflexivity.
  split; [exact H1|]. split; [exact H2|]. split; [exact H3|].
  exact (proj2 (create_todo (online 300) oneTodoDb milkBody (js "  buy milk ") H1) H2 H3).
Defined.

(** The text stored for [{ "text": "  buy milk " }]. *)
Lemma trim_buy_milk : trim (js "  buy milk ") = js "buy milk".
Proof. reflexivity. Qed.

(** C4, at the request [{ "text": 42 }]: the request is neither refused
    with 400 nor answered 201.  The handler calls [trim] on the number
    before its [try], so the exception escapes it: no response is sent and
    no store call is made.  POST /api/quotes evaluates the same expression
    inside its [try] and answers 500 for the same body. *)
Theorem post_todo_number_text_unanswered :
  run (post_api_todos numberBody) (online 9) oneTodoDb =
    {| outcome := {| logged := []; reply := Unhandled TypeError |};
       final := oneTodoDb; issued := [] |}
  /\ run (post_api_quotes numberBody) (online 9) oneTodoDb =
    {| outcome := serverError "Failed to insert quotes:" TypeError "Failed to insert quotes";
       final := oneTodoDb; issued := [] |}.
Proof. split; reflexivity. Qed.

(** ** DELETE /api/todos/:id *)

(** C6: with a well-formed identifier and the store reachable, DELETE
    removes the todo stored under it and answers 200 with the identifier
    as it was sent; if there is none it answers 404 and the store is left
    as it was. *)
Theorem delete_todo env db id oid :
  connected env = true ->
  castObjectId id = Some oid ->
  let r := run (delete_api_todos_id id) env db in
  match todos db !! oid with
  | Some _ =>
      reply (outcome r) = Sent 200 (Deleted "Todo deleted" id)
      /\ final r = {| quotes := quotes db; todos := delete oid (todos db) |}
      /\ todos (final r) !! oid = None
  | None =>
      reply (outcome r) = Sent 404 (Message "Todo not found") /\ final r = db
  end.
Proof.
  intros Hconn Hid. cbn -[castObjectId]. rewrite Hid, Hconn.
  destruct (todos db !! oid) as [d|] eqn:Hd; cbn.
  - repeat split. apply lookup_delete_eq.
  - split; reflexivity.
Qed.

Lemma delete_todo_witness :
  connected (online 400) = true /\
  castObjectId sampleId = Some sampleOid /\
  reply (outcome (run (delete_api_todos_id sampleId) (online 400) oneTodoDb)) =
    Sent 200 (Deleted "Todo deleted" sampleId)
  /\ final (run (delete_api_todos_id sampleId) (online 400) oneTodoDb) =
     {| quotes := ∅; todos := delete sampleOid (todos oneTodoDb) |}
  /\ todos (final (run (delete_api_todos_id sampleId) (online 400) oneTodoDb)) !! sampleOid
     = None.
Proof.
  assert (H1 : connected (online 400) = true) by reflexivity.
  assert (H2 : castObjectId sampleId = Some sampleOid) by reflexivity.
  split; [exact H1|]. split; [exact H2|].
  exact (delete_todo (online 400) oneTodoDb sampleId sampleOid H1 H2).
Defined.

(** ** Reading the collections *)

Lemma elem_of_stored {D} (m : gmap ObjectId D) (x : Stored D) :
  x ∈ stored m <-> m !! _id x = Some (fields x).
Proof.
  unfold stored. rewrite list_elem_of_fmap. split.
  - intros [[k v] [-> Hkv]]. simpl. by apply elem_of_map_to_list.
  - intros H. exists (_id x, fields x). split; [by destruct x|].
    by apply elem_of_map_to_list.
Qed.

Lemma stored_nil {D} (m : gmap ObjectId D) : stored m = [] <-> m = ∅.
Proof.
  unfold stored. rewrite <- map_to_list_empty_iff. split.
  - apply fmap_nil_inv.
  - intros ->. reflexivity.
Qed.

Lemma sample1_elem {D} (e : nat) (docs : list D) :
  docs <> [] -> exists d, d ∈ docs /\ sample1 e docs = [d].
Proof.
  intros Hne. destruct docs as [|x docs]; [congruence|].
  unfold sample1.
  destruct (lookup_lt_is_Some_2 (x :: docs) (e mod length (x :: docs))%nat) as [d Hd].
  { apply Nat.mod_upper_bound. discriminate. }
  exists d. split; [by eapply list_elem_of_lookup_2|]. by rewrite Hd.
Qed.

(** C7: with the store reachable, GET /api/quotes/random writes nothing;
    on an empty collection it answers 404 "No quotes found"; on a
    non-empty one it answers 200 with a document of the collection,
    whatever the randomness; and with exactly one quote stored the answer
    is that quote. *)
Theorem random_quote env db :
  connected env = true ->
  let r := run get_api_quotes_random env db in
  final r = db
  /\ issued r = [issue Quote_aggregate_sample]
  /\ (quotes db = ∅ -> reply (outcome r) = Sent 404 (Message "No quotes found"))
  /\ (quotes db <> ∅ ->
      exists id q, quotes db !! id = Some q
                   /\ reply (outcome r) = Sent 200 (QuoteJson (Build_Stored id q)))
  /\ (forall id q, quotes db = {[ id := q ]} ->
      reply (outcome r) = Sent 200 (QuoteJson (Build_Stored id q))).
Proof.
  intros Hconn. cbn -[sample1]. rewrite Hconn. cbn -[sample1].
  assert (Hnonempty : quotes db <> ∅ ->
    exists id q, quotes db !! id = Some q
      /\ reply (outcome (run
           (match sample1 (entropy env) (stored (quotes db)) with
            | [] => Return (respond 404 (Message "No quotes found"))
            | doc0 :: _ => Return (respond 200 (QuoteJson doc0))
            end) env db)) = Sent 200 (QuoteJson (Build_Stored id q))).
  { intros Hne.
    destruct (sample1_elem (entropy env) (stored (quotes db))) as [d [Hin Hs]].
    { by rewrite stored_nil. }
    apply elem_of_stored in Hin. exists (_id d), (fields d). split; [exact Hin|].
    rewrite Hs. by destruct d. }
  split; [|split; [|split; [|split]]].
  - by destruct (sample1 _ _).
  - by destruct (sample1 _ _).
  - intros Hempty. apply stored_nil in Hempty. by rewrite Hempty.
  - exact Hnonempty.
  - intros id q Hone. destruct Hnonempty as (id' & q' & Hlook & Hrep).
    { rewrite Hone. apply insert_non_empty. }
    rewrite Hone in Hlook. apply lookup_singleton_Some in Hlook as [-> ->].
    exact Hrep.
Qed.

Lemma random_quote_witness :
  connected online77 = true /\
  quotes oneQuoteDb = {[ 7%N := sampleQuote ]} /\
  reply (outcome (run get_api_quotes_random online77 oneQuoteDb)) =
    Sent 200 (QuoteJson (Build_Stored 7%N sampleQuote)).
Proof.
  assert (H : connected online77 = true) by reflexivity.
  assert (Hone : quotes oneQuoteDb = {[ 7%N := sampleQuote ]}) by reflexivity.
  split; [exact H|]. split; [exact Hone|].
  destruct (random_quote online77 oneQuoteDb H) as (_ & _ & _ & _ & Hsingle).
  exact (Hsingle 7%N sampleQuote Hone).
Defined.

(** ** GET /api/todos *)

#[export] Instance newerFirst_total : Total newerFirst.
Proof. intros a b. unfold newerFirst. lia. Qed.

#[export] Instance newerFirst_trans : Transitive newerFirst.
Proof. intros a b c. unfold newerFirst. lia. Qed.

(** In a listing sorted newest first, a document created strictly later
    than another stands before it. *)
Lemma later_stands_before (l : list (Stored Todo.doc)) a b :
  StronglySorted newerFirst l -> a ∈ l -> b ∈ l ->
  Todo.createdAt (fields a) < Todo.createdAt (fields b) ->
  exists l1 l2 l3, l = l1 ++ b :: l2 ++ a :: l3.
Proof.
  intros Hsorted Ha Hb Hlt.
  apply list_elem_of_split in Ha as (p & q & ->).
  apply StronglySorted_app_1_r, StronglySorted_inv in Hsorted as [_ Hall].
  rewrite elem_of_app, elem_of_cons in Hb. destruct Hb as [Hb | [-> | Hb]].
  - apply list_elem_of_split in Hb as (p1 & p2 & ->).
    exists p1, p2, q. by rewrite <- app_assoc.
  - lia.
  - rewrite Forall_forall in Hall. specialize (Hall b Hb). unfold newerFirst in Hall. lia.
Qed.

Lemma list_todos_run env db :
  connected env = true ->
  run get_api_todos env db =
    {| outcome := respond 200 (TodosJson (merge_sort newerFirst (stored (todos db))));
       final := db; issued := [issue Todo_find_sort] |}.
Proof. intros Hconn. cbn -[merge_sort]. rewrite Hconn. reflexivity. Qed.

(** C5, as the code has it: with the store reachable, GET /api/todos
    answers 200 with a listing that holds exactly the stored todos, sorted
    by [createdAt] from newest to oldest, and that is the empty array for
    an empty collection; and after todo A and then, at a strictly later
    clock reading, todo B have been created through POST /api/todos, B
    stands before A in the listing. *)
Theorem list_todos_newest_first env db :
  connected env = true ->
  (exists l,
     run get_api_todos env db =
       {| outcome := respond 200 (TodosJson l); final := db;
          issued := [issue Todo_find_sort] |}
     /\ l ≡ₚ stored (todos db)
     /\ (forall x, x ∈ l <-> todos db !! _id x = Some (fields x))
     /\ StronglySorted newerFirst l
     /\ (todos db = ∅ -> l = []))
  /\ (forall envA envB bodyA bodyB sA sB,
        connected envA = true -> connected envB = true ->
        optProp bodyA (js "text") = JStr sA -> trim sA <> [] ->
        optProp bodyB (js "text") = JStr sB -> trim sB <> [] ->
        now envA < now envB ->
        let rA := run (post_api_todos bodyA) envA db in
        let rB := run (post_api_todos bodyB) envB (final rA) in
        exists a b l1 l2 l3,
          reply (outcome rA) = Sent 201 (TodoJson a)
          /\ reply (outcome rB) = Sent 201 (TodoJson b)
          /\ reply (outcome (run get_api_todos env (final rB))) =
               Sent 200 (TodosJson (l1 ++ b :: l2 ++ a :: l3))).
Proof.
  intros Hconn. split.
  - exists (merge_sort newerFirst (stored (todos db))).
    split; [by apply list_todos_run|].
    split; [apply merge_sort_Permutation|].
    split; [|split].
    + intros x. rewrite merge_sort_Permutation. apply elem_of_stored.
    + apply (StronglySorted_merge_sort _).
    + intros Hempty. apply stored_nil in Hempty. by rewrite Hempty.
  - intros envA envB bodyA bodyB sA sB HcA HcB HtA HnA HtB HnB Hlt rA rB.
    destruct (post_api_todos_inserts envA db bodyA sA HtA HnA HcA)
      as (idA & HfreshA & HrA).
    fold rA in HrA.
    destruct (post_api_todos_inserts envB (final rA) bodyB sB HtB HnB HcB)
      as (idB & HfreshB & HrB).
    fold rB in HrB.
    rewrite HrA in HfreshB. cbn in HfreshB.
    set (dA := {| Todo.text := trim sA; Todo.completed := false;
                  Todo.createdAt := now envA; Todo.updatedAt := now envA |}) in *.
    set (dB := {| Todo.text := trim sB; Todo.completed := false;
                  Todo.createdAt := now envB; Todo.updatedAt := now envB |}) in *.
    assert (HneAB : idA <> idB).
    { intros ->. by rewrite lookup_insert_eq in HfreshB. }
    destruct (later_stands_before
                (merge_sort newerFirst (stored (todos (final rB))))
                (Build_Stored idA dA) (Build_Stored idB dB)) as (l1 & l2 & l3 & Hl).
    + apply (StronglySorted_merge_sort _).
    + rewrite merge_sort_Permutation. apply elem_of_stored.
      rewrite HrB, HrA. cbn. rewrite lookup_insert_ne by congruence.
      apply lookup_insert_eq.
    + rewrite merge_sort_Permutation. apply elem_of_stored.
      rewrite HrB. cbn. apply lookup_insert_eq.
    + exact Hlt.
    + exists (Build_Stored idA dA), (Build_Stored idB dB), l1, l2, l3.
      rewrite HrA at 1. rewrite HrB at 1. rewrite (list_todos_run _ _ Hconn).
      cbn -[merge_sort]. rewrite Hl. repeat split.
Qed.

Lemma list_todos_newest_first_witness :
  connected (online 30) = true /\
  connected (online 10) = true /\ connected (online 20) = true /\
  optProp firstBody (js "text") = JStr (js "first") /\ trim (js "first") <> [] /\
  optProp secondBody (js "text") = JStr (js "second") /\ trim (js "second") <> [] /\
  now (online 10) < now (online 20) /\
  exists a b l1 l2 l3,
    reply (outcome (run (post_api_todos firstBody) (online 10) emptyDb)) =
      Sent 201 (TodoJson a)
    /\ reply (outcome (run (post_api_todos secondBody) (online 20)
                          (final (run (post_api_todos firstBody) (online 10) emptyDb)))) =
      Sent 201 (TodoJson b)
    /\ reply (outcome (run get_api_todos (online 30)
                (final (run (post_api_todos secondBody) (online 20)
                          (final (run (post_api_todos firstBody) (online 10) emptyDb)))))) =
         Sent 200 (TodosJson (l1 ++ b :: l2 ++ a :: l3)).
Proof.
  assert (H0 : connected (online 30) = true) by reflexivity.
  assert (H1 : connected (online 10) = true) by reflexivity.
  assert (H2 : connected (online 20) = true) by reflexivity.
  assert (H3 : optProp firstBody (js "text") = JStr (js "first")) by reflexivity.
  assert (H4 : trim (js "first") <> []) by (vm_compute; discriminate).
  assert (H5 : optProp secondBody (js "text") = JStr (js "second")) by reflexivity.
  assert (H6 : trim (js "second") <> []) by (vm_compute; discriminate).
  assert (H7 : now (online 10) < now (online 20)) by (simpl; lia).
  repeat (split; [assumption|]).
  exact (proj2 (list_todos_newest_first (online 30) emptyDb H0)
               (online 10) (online 20) firstBody secondBody (js "first") (js "second")
               H1 H2 H3 H4 H5 H6 H7).
Defined.

(** C5 as stated fails when the clock steps back between the two
    creations: todo A is created at clock reading 20, todo B after it at
    reading 10, and the listing has A before B. *)
Lemma later_created_listed_second :
  reply (outcome (run (post_api_todos firstBody) (online 20) emptyDb)) =
    Sent 201 (TodoJson (Build_Stored 0%N
      {| Todo.text := js "first"; Todo.completed := false;
         Todo.createdAt := 20; Todo.updatedAt := 20 |}))
  /\ reply (outcome (run (post_api_todos secondBody) (online 10)
                        (final (run (post_api_todos firstBody) (online 20) emptyDb)))) =
    Sent 201 (TodoJson (Build_Stored 1%N
      {| Todo.text := js "second"; Todo.completed := false;
         Todo.createdAt := 10; Todo.updatedAt := 10 |}))
  /\ reply (outcome (run get_api_todos (online 30)
              (final (run (post_api_todos secondBody) (online 10)
                        (final (run (post_api_todos firstBody) (online 20) emptyDb)))))) =
    Sent 200 (TodosJson
      [Build_Stored 0%N
         {| Todo.text := js "first"; Todo.completed := false;
            Todo.createdAt := 20; Todo.updatedAt := 20 |};
       Build_Stored 1%N
         {| Todo.text := js "second"; Todo.completed := false;
            Todo.createdAt := 10; Todo.updatedAt := 10 |}]).
Proof. repeat split; vm_compute; reflexivity. Qed.

(** ** Requests outside the API *)




(** ** Validation and the store *)

Lemma run_400_before_call h env db b :
  answersAfterCall h ->
  reply (outcome (run h env db)) = Sent 400 b ->
  issued (run h env db) = [] /\ final (run h env db) = db.
Proof.
  destruct h as [o|X call k]; [split; reflexivity|].
  intros Hk. cbn. destruct (exec call env db) as [settled db'].
  specialize (Hk settled). destruct (k settled) as [o|]; [|contradiction].
  cbn. intros Hreply. rewrite Hreply in Hk. cbn in Hk. congruence.
Qed.

Lemma get_api_quotes_random_after_call : answersAfterCall get_api_quotes_random.
Proof. intros [[|doc0 docs]|err]; cbn; discriminate. Qed.

Lemma get_api_todos_after_call : answersAfterCall get_api_todos.
Proof. intros [todos|err]; cbn; discriminate. Qed.

Lemma post_api_quotes_after_call body : answersAfterCall (post_api_quotes body).
Proof.
  unfold post_api_quotes, tryCatch, mbind, Completion_bind, mret, Completion_ret.
  cbv zeta. repeat case_match; simplify_eq; try exact I;
    intros [result|err]; cbn; discriminate.
Qed.

Lemma post_api_todos_after_call body : answersAfterCall (post_api_todos body).
Proof.
  unfold post_api_todos, orReject, tryCatch, mbind, Completion_bind, mret, Completion_ret.
  repeat case_match; simplify_eq; try exact I;
    intros [todo|err]; cbn; discriminate.
Qed.

Lemma patch_api_todos_id_after_call id body : answersAfterCall (patch_api_todos_id id body).
Proof.
  unfold patch_api_todos_id. repeat case_match; try exact I.
  intros [[todo|]|err]; cbn; discriminate.
Qed.

Lemma delete_api_todos_id_after_call id : answersAfterCall (delete_api_todos_id id).
Proof. intros [[todo|]|err]; cbn; discriminate. Qed.

Create HintDb after_call.
#[export] Hint Resolve get_api_quotes_random_after_call get_api_todos_after_call
  post_api_quotes_after_call post_api_todos_after_call
  patch_api_todos_id_after_call delete_api_todos_id_after_call : after_call.

(** What holds of C2 on every route: a request answered 400 has made no
    store call and has left the store as it was. *)
Lemma bad_request_precedes_store fw req env db b :
  reply (outcome (app fw req env db)) = Sent 400 b ->
  issued (app fw req env db) = [] /\ final (app fw req env db) = db.
Proof.
  unfold app. apply run_400_before_call. unfold dispatch, withParam.
  repeat case_match; try exact I; auto with after_call.
Qed.

(** The single-quote branch of POST /api/quotes checks the text itself. *)
Lemma single_quote_blank_text env db body s :
  typeof (optProp body (js "quotes")) <> TypeObject ->
  optProp body (js "text") = JStr s ->
  trim s = [] ->
  run (post_api_quotes body) env db =
    {| outcome := respond 400 (Message "Text is required"); final := db; issued := [] |}.
Proof.
  intros Hq Ht Hs. unfold post_api_quotes.
  rewrite !source_prop, Ht.
  assert (Htrim : callTrim (orElse (JStr s) (JStr [])) = Normal (trim s))
    by (destruct s; reflexivity).
  destruct (optProp body (js "quotes")); simpl in Hq; try congruence;
    cbn -[trim callTrim orElse]; rewrite Htrim; cbn -[trim]; rewrite Hs; reflexivity.
Qed.

(** * Further properties *)

(** ** What no handler can do to the store *)

Lemma fresh_quote_id (m : gmap ObjectId Quote.doc) : m !! fresh (dom m) = None.
Proof. apply not_elem_of_dom, is_fresh. Qed.

(** Any handler, run against the store, inherits what holds of every
    single store call. *)
Lemma run_final_ind (P : Db -> Db -> Prop) env :
  (forall db, P db db) ->
  (forall db1 db2 db3, P db1 db2 -> P db2 db3 -> P db1 db3) ->
  (forall X (c : StoreCall X) db, P db (exec c env db).2) ->
  forall h db, P db (final (run h env db)).
Proof.
  intros Hrefl Htrans Hexec h.
  induction h as [o|X call k IH]; intros db; cbn.
  - apply Hrefl.
  - specialize (Hexec X call db).
    destruct (exec call env db) as [settled db']. cbn in *.
    eapply Htrans; [exact Hexec | apply IH].
Qed.

Lemma exec_offline {X} (c : StoreCall X) env db :
  connected env = false -> (exec c env db).2 = db.
Proof.
  intros Hconn. destruct c; cbn; rewrite ?Hconn; repeat case_match; reflexivity.
Qed.

(** While the connection is down no request writes anything, whatever the
    handler. *)
Lemma offline_writes_nothing h env db :
  connected env = false -> final (run h env db) = db.
Proof.
  intros Hconn.
  apply (run_final_ind (fun a b => b = a) env); try congruence.
  intros X c db0. by apply exec_offline.
Qed.

Lemma offline_writes_nothing_witness :
  connected {| now := 5; entropy := 0; connected := false |} = false /\
  final (run (post_api_todos milkBody) {| now := 5; entropy := 0; connected := false |}
             oneTodoDb) = oneTodoDb.
Proof.
  assert (H : connected {| now := 5; entropy := 0; connected := false |} = false)
    by reflexivity.
  split; [exact H|].
  exact (offline_writes_nothing (post_api_todos milkBody) _ oneTodoDb H).
Defined.

(** ** Stored texts stay clean *)

Lemma cleanText_trim s : trim s <> [] -> cleanText (trim s).
Proof. intros H. split; [exact H | apply trim_idem]. Qed.

Lemma required_trimmed s t :
  required (trim <$> s) = Normal t -> cleanText t.
Proof.
  destruct s as [s|]; [|discriminate]. cbn.
  destruct (trim s) eqn:Hs; [discriminate|].
  intros [= <-]. rewrite <- Hs. apply cleanText_trim. by rewrite Hs.
Qed.

Lemma validateQuote_clean i t a :
  validateQuote i = Normal (t, a) ->
  cleanText t /\ forall x, a = Some x -> trim x = x.
Proof.
  unfold validateQuote, castTrimmed.
  destruct (castString (in_text i)) as [st|]; [|discriminate].
  destruct (castString (in_author i)) as [sa|]; [|discriminate].
  destruct (required (trim <$> st)) as [t'|] eqn:Hreq; [|discriminate].
  intros [= <- <-]. split; [by eapply required_trimmed|].
  intros x Hx. destruct sa as [s|]; [|discriminate]. cbn in Hx.
  injection Hx as <-. apply trim_idem.
Qed.

Lemma validateTodoText_clean s t : validateTodoText s = Normal t -> cleanText t.
Proof. unfold validateTodoText. apply (required_trimmed (Some s)). Qed.

Lemma mapM_validateQuote docs qs :
  mapM validateQuote docs = Normal qs ->
  Forall (fun q => cleanText q.1 /\ forall x, q.2 = Some x -> trim x = x) qs
  /\ length qs = length docs.
Proof.
  revert qs. induction docs as [|d docs IH]; intros qs; cbn.
  - intros [= <-]. split; [constructor | reflexivity].
  - unfold mbind, Completion_bind.
    destruct (validateQuote d) as [[t a]|] eqn:Hd; [|discriminate].
    destruct (mapM validateQuote docs) as [qs'|]; [|discriminate].
    intros [= <-]. destruct (IH qs' eq_refl) as [Hall Hlen]. split.
    + constructor; [by apply validateQuote_clean with d | exact Hall].
    + cbn. by rewrite Hlen.
Qed.

Lemma insertQuotes_clean t qs m :
  Forall (fun q => cleanText q.1 /\ forall x, q.2 = Some x -> trim x = x) qs ->
  cleanQuotes m -> cleanQuotes (insertQuotes t qs m).2.
Proof.
  intros Hall. revert m. induction Hall as [|q qs Hq _ IH]; intros m Hm; cbn.
  - exact Hm.
  - destruct (insertQuotes t qs (<[fresh (dom m) := _]> m)) as [ds m2] eqn:Hrest.
    cbn. specialize (IH (<[fresh (dom m) :=
      {| Quote.text := q.1; Quote.author := q.2;
         Quote.createdAt := t; Quote.updatedAt := t |}]> m)).
    rewrite Hrest in IH. apply IH.
    intros id d. rewrite lookup_insert_Some.
    intros [[_ <-] | [_ Hd]]; [exact Hq | by eapply Hm].
Qed.

Lemma exec_wellFormed {X} (c : StoreCall X) env db :
  wellFormed db -> wellFormed (exec c env db).2.
Proof.
  intros Hwf. pose proof Hwf as [Htodos Hquotes].
  destruct c as [|docs|doc| |text|id updates|id];
    cbn -[validateTodoText validateQuote validateUpdateText castObjectId merge_sort];
    unfold insertQuote, insertTodo.
  - by destruct (connected env).
  - destruct (mapM validateQuote docs) as [qs|] eqn:Hqs; [|done].
    destruct qs as [|q qs]; [done|]. destruct (connected env); [|done].
    apply mapM_validateQuote in Hqs as [Hall _].
    pose proof (insertQuotes_clean (now env) (q :: qs) (quotes db) Hall Hquotes) as Hc.
    destruct (insertQuotes (now env) (q :: qs) (quotes db)) as [ds m]. by split.
  - destruct (validateQuote doc) as [[t a]|] eqn:Hdoc; [|done].
    destruct (connected env); [|done]. cbn. split; [exact Htodos|].
    intros id d. cbn. rewrite lookup_insert_Some.
    intros [[_ <-] | [_ Hd]]; [by eapply validateQuote_clean | by eapply Hquotes].
  - by destruct (connected env).
  - destruct (validateTodoText text) as [t|] eqn:Ht; [|done].
    destruct (connected env); [|done]. cbn. split; [|exact Hquotes].
    intros id d. cbn. rewrite lookup_insert_Some.
    intros [[_ <-] | [_ Hd]]; [by eapply validateTodoText_clean | by eapply Htodos].
  - destruct (castObjectId id) as [oid|]; [|done].
    destruct (validateUpdateText (upd_text updates)) as [t|] eqn:Ht; [|done].
    destruct (connected env); [|done].
    destruct (todos db !! oid) as [d|] eqn:Hd; [|done]. cbn. split; [|exact Hquotes].
    intros id' d'. cbn. rewrite lookup_insert_Some.
    intros [[_ <-] | [_ Hd']]; [|by eapply Htodos]. cbn.
    unfold validateUpdateText in Ht. destruct (upd_text updates) as [s|]; cbn.
    + destruct (validateTodoText s) as [s'|] eqn:Hs; [|discriminate].
      injection Ht as <-. cbn. by eapply validateTodoText_clean.
    + injection Ht as <-. cbn. by eapply Htodos.
  - destruct (castObjectId id) as [oid|]; [|done].
    destruct (connected env); [|done].
    destruct (todos db !! oid) as [d|] eqn:Hd; [|done]. cbn. split; [|exact Hquotes].
    intros id' d'. cbn. rewrite lookup_delete_Some. intros [_ Hd']. by eapply Htodos.
Qed.

Lemma run_stays_clean h env db :
  wellFormed db -> wellFormed (final (run h env db)).
Proof.
  revert db. induction h as [o|X call k IH]; intros db Hwf; cbn; [exact Hwf|].
  pose proof (exec_wellFormed call env db Hwf) as Hstep.
  destruct (exec call env db) as [settled db']. cbn in *. by apply IH.
Qed.

(** X1: whatever the request, a store in which every todo and quote text
    is non-empty and trimmed (and every author trimmed) is left in such a
    state. *)
Theorem stored_texts_stay_clean fw req env db :
  wellFormed db -> wellFormed (final (app fw req env db)).
Proof. apply run_stays_clean. Qed.

Lemma wellFormed_witness_db : wellFormed oneTodoDb.
Proof.
  split.
  - intros id d Hd. cbn in Hd. apply lookup_singleton_Some in Hd as [_ <-].
    split; [vm_compute; discriminate | reflexivity].
  - intros id d Hd. cbn in Hd. by rewrite lookup_empty in Hd.
Qed.

Lemma stored_texts_stay_clean_witness :
  wellFormed oneTodoDb /\
  wellFormed (final (app bareBundle postMilk (online 300) oneTodoDb)).
Proof.
  split; [exact wellFormed_witness_db|].
  exact (stored_texts_stay_clean bareBundle postMilk (online 300) oneTodoDb
           wellFormed_witness_db).
Defined.

(** ** Quotes are only ever added *)

Lemma insertQuotes_keeps t qs (m : gmap ObjectId Quote.doc) id q :
  m !! id = Some q -> (insertQuotes t qs m).2 !! id = Some q.
Proof.
  revert m. induction qs as [|x qs IH]; intros m Hm; cbn; [exact Hm|].
  specialize (IH (<[fresh (dom m) :=
    {| Quote.text := x.1; Quote.author := x.2;
       Quote.createdAt := t; Quote.updatedAt := t |}]> m)).
  destruct (insertQuotes t qs _) as [ds m2]. cbn in *. apply IH.
  rewrite lookup_insert_ne; [exact Hm|].
  intros Heq. pose proof (fresh_quote_id m) as Hfresh. rewrite Heq in Hfresh. congruence.
Qed.

Lemma exec_keeps_quotes {X} (c : StoreCall X) env db id q :
  quotes db !! id = Some q -> quotes (exec c env db).2 !! id = Some q.
Proof.
  intros Hq.
  destruct c as [|docs|doc| |text|cid updates|cid];
    cbn -[validateTodoText validateQuote validateUpdateText castObjectId merge_sort];
    unfold insertQuote, insertTodo.
  - by destruct (connected env).
  - destruct (mapM validateQuote docs) as [[|x qs]|]; [done| |done].
    destruct (connected env); [|done].
    pose proof (insertQuotes_keeps (now env) (x :: qs) (quotes db) id q Hq) as Hk.
    by destruct (insertQuotes (now env) (x :: qs) (quotes db)).
  - destruct (validateQuote doc); [|done]. destruct (connected env); [|done]. cbn.
    rewrite lookup_insert_ne; [exact Hq|].
    intros Heq. pose proof (fresh_quote_id (quotes db)) as Hfresh.
    rewrite Heq in Hfresh. congruence.
  - by destruct (connected env).
  - destruct (validateTodoText text); [|done]. by destruct (connected env).
  - destruct (castObjectId cid) as [oid|]; [|done].
    destruct (validateUpdateText (upd_text updates)); [|done].
    destruct (connected env); [|done]. by destruct (todos db !! oid).
  - destruct (castObjectId cid) as [oid|]; [|done].
    destruct (connected env); [|done]. by destruct (todos db !! oid).
Qed.

Lemma run_keeps_quotes h env db id q :
  quotes db !! id = Some q -> quotes (final (run h env db)) !! id = Some q.
Proof.
  revert db. induction h as [o|X call k IH]; intros db Hq; cbn; [exact Hq|].
  pose proof (exec_keeps_quotes call env db id q Hq) as Hstep.
  destruct (exec call env db) as [settled db']. cbn in *. by apply IH.
Qed.

(** X2: no request updates or deletes a quote: a quote in the store before
    a request is in it unchanged afterwards. *)
Theorem quotes_are_kept fw req env db id q :
  quotes db !! id = Some q -> quotes (final (app fw req env db)) !! id = Some q.
Proof. apply run_keeps_quotes. Qed.

Lemma quotes_are_kept_witness :
  quotes oneQuoteDb !! 7%N = Some sampleQuote /\
  quotes (final (app bareBundle postTwoQuotes online77 oneQuoteDb)) !! 7%N =
    Some sampleQuote.
Proof.
  assert (H : quotes oneQuoteDb !! 7%N = Some sampleQuote) by reflexivity.
  split; [exact H|].
  exact (quotes_are_kept bareBundle postTwoQuotes online77 oneQuoteDb 7%N sampleQuote H).
Defined.

(** ** One request, at most one store call *)

Lemma dispatch_after_call fw clock req : answersAfterCall (dispatch fw clock req).
Proof.
  unfold dispatch, withParam.
  repeat case_match; try exact I; auto with after_call.
Qed.

(** X3: whatever the request, the stack issues at most one store call
    while answering it. *)
Theorem at_most_one_store_call fw req env db :
  (length (issued (app fw req env db)) <= 1)%nat.
Proof.
  unfold app. pose proof (dispatch_after_call fw (now env) req) as Hk.
  destruct (dispatch fw (now env) req) as [o|X call k]; cbn; [lia|].
  destruct (exec call env db) as [settled db']. specialize (Hk settled).
  destruct (k settled); [cbn; lia | contradiction].
Qed.

(** ** Replies and writes *)

Lemma exec_rejected {X} (c : StoreCall X) env db err db' :
  exec c env db = (Rejected err, db') -> db' = db.
Proof.
  destruct c as [|docs|doc| |text|cid updates|cid];
    cbn -[validateTodoText validateQuote validateUpdateText castObjectId merge_sort];
    unfold insertQuote, insertTodo, offline; repeat case_match; congruence.
Qed.

Lemma exec_sample_reads env db : (exec Quote_aggregate_sample env db).2 = db.
Proof. cbn. by destruct (connected env). Qed.

Lemma exec_find_reads env db : (exec Todo_find_sort env db).2 = db.
Proof. cbn -[merge_sort]. by destruct (connected env). Qed.

Lemma exec_update_none id updates env db db' :
  exec (Todo_findByIdAndUpdate id updates) env db = (Fulfilled None, db') -> db' = db.
Proof.
  cbn -[validateUpdateText castObjectId]. unfold offline.
  repeat case_match; congruence.
Qed.

Lemma exec_delete_none id env db db' :
  exec (Todo_findByIdAndDelete id) env db = (Fulfilled None, db') -> db' = db.
Proof. cbn -[castObjectId]. unfold offline. repeat case_match; congruence. Qed.

Lemma run_await {X} (call : StoreCall X) k env db :
  run (Await call k) env db =
    {| outcome := outcome (run (k (exec call env db).1) env (exec call env db).2);
       final := final (run (k (exec call env db).1) env (exec call env db).2);
       issued := issue call :: issued (run (k (exec call env db).1) env (exec call env db).2) |}.
Proof. cbn. by destruct (exec call env db). Qed.

Ltac run_call :=
  rewrite run_await;
  match goal with
  | |- context [exec ?c ?env ?db] =>
      let settled := fresh "settled" in
      let db' := fresh "db'" in
      let He := fresh "Hexec" in
      destruct (exec c env db) as [settled db'] eqn:He; cbn [fst snd] in *
  end.

Ltac success_or_unchanged :=
  first [ left; cbn; eauto using exec_rejected, exec_update_none, exec_delete_none; fail
        | right; left; reflexivity
        | right; right; reflexivity ].

Lemma get_api_quotes_random_writes env db :
  final (run get_api_quotes_random env db) = db.
Proof.
  unfold get_api_quotes_random. rewrite run_await.
  pose proof (exec_sample_reads env db) as H.
  destruct (exec Quote_aggregate_sample env db) as [[[|doc0 docs]|err] db']; exact H.
Qed.

Lemma get_api_todos_writes env db : final (run get_api_todos env db) = db.
Proof.
  unfold get_api_todos. rewrite run_await.
  pose proof (exec_find_reads env db) as H.
  destruct (exec Todo_find_sort env db) as [[ds|err] db']; exact H.
Qed.

Lemma post_api_quotes_writes body env db :
  successOrUnchanged (run (post_api_quotes body) env db) db.
Proof.
  unfold successOrUnchanged, post_api_quotes, tryCatch, mbind, Completion_bind,
    mret, Completion_ret.
  cbv zeta. repeat case_match; simplify_eq; try (left; reflexivity);
    run_call; destruct settled as [result|err]; success_or_unchanged.
Qed.

Lemma post_api_todos_writes body env db :
  successOrUnchanged (run (post_api_todos body) env db) db.
Proof.
  unfold successOrUnchanged, post_api_todos, orReject, tryCatch, mbind, Completion_bind,
    mret, Completion_ret.
  repeat case_match; simplify_eq; try (left; reflexivity);
    run_call; destruct settled as [result|err]; success_or_unchanged.
Qed.

Lemma patch_api_todos_id_writes id body env db :
  successOrUnchanged (run (patch_api_todos_id id body) env db) db.
Proof.
  unfold successOrUnchanged, patch_api_todos_id.
  repeat case_match; try (left; reflexivity).
  run_call. destruct settled as [[todo|]|err]; success_or_unchanged.
Qed.

Lemma delete_api_todos_id_writes id env db :
  successOrUnchanged (run (delete_api_todos_id id) env db) db.
Proof.
  unfold successOrUnchanged, delete_api_todos_id.
  run_call. destruct settled as [[todo|]|err]; success_or_unchanged.
Qed.

(** X4: a request that is answered with anything but 200 or 201, or not
    answered at all, has left the store exactly as it was. *)
Theorem writes_only_on_success fw req env db :
  final (app fw req env db) = db
  \/ statusOf (reply (outcome (app fw req env db))) = Some 200
  \/ statusOf (reply (outcome (app fw req env db))) = Some 201.
Proof.
  unfold app, dispatch, withParam.
  repeat case_match; try (left; reflexivity);
    first [ left; apply get_api_quotes_random_writes
          | left; apply get_api_todos_writes
          | apply post_api_quotes_writes
          | apply post_api_todos_writes
          | apply patch_api_todos_id_writes
          | apply delete_api_todos_id_writes ].
Qed.

(** ** Replies of the API routes *)

Lemma run_allOutcomes P h env db : allOutcomes P h -> P (outcome (run h env db)).
Proof.
  destruct h as [o|X call k]; cbn; [done|]. intros Hk.
  destruct (exec call env db) as [settled db']. specialize (Hk settled).
  by destruct (k settled).
Qed.

Ltac generic_outcome :=
  cbn;
  first [ reflexivity
        | do 3 eexists; split; [reflexivity|]; split; [|reflexivity];
          apply list_elem_of_In; simpl; tauto ].

Lemma get_api_quotes_random_generic : allOutcomes genericOutcome get_api_quotes_random.
Proof. intros [[|doc0 docs]|err]; generic_outcome. Qed.

Lemma get_api_todos_generic : allOutcomes genericOutcome get_api_todos.
Proof. intros [ds|err]; generic_outcome. Qed.

Lemma post_api_quotes_generic body : allOutcomes genericOutcome (post_api_quotes body).
Proof.
  unfold post_api_quotes, tryCatch, mbind, Completion_bind, mret, Completion_ret.
  cbv zeta. repeat case_match; simplify_eq; try generic_outcome;
    intros [result|err]; generic_outcome.
Qed.

Lemma post_api_todos_generic body : allOutcomes genericOutcome (post_api_todos body).
Proof.
  unfold post_api_todos, orReject, tryCatch, mbind, Completion_bind, mret, Completion_ret.
  repeat case_match; simplify_eq; try generic_outcome;
    intros [result|err]; generic_outcome.
Qed.

Lemma patch_api_todos_id_generic id body :
  allOutcomes genericOutcome (patch_api_todos_id id body).
Proof.
  unfold patch_api_todos_id, collectUpdates.
  repeat case_match; simplify_eq; try generic_outcome;
    intros [[todo|]|err]; generic_outcome.
Qed.

Lemma delete_api_todos_id_generic id : allOutcomes genericOutcome (delete_api_todos_id id).
Proof. intros [[todo|]|err]; generic_outcome. Qed.

(** X5: on every API route, a 500 response carries one of the six fixed
    messages, whatever the exception was, and comes with exactly one
    [console.error] line, the one the handler writes in its [catch]. *)
Theorem server_errors_are_generic fw req env db route b :
  apiRoute (method req) (path req) = Some route ->
  reply (outcome (app fw req env db)) = Sent 500 b ->
  exists message label err,
    b = Message message /\ message ∈ genericMessages
    /\ logged (outcome (app fw req env db)) = [ErrorLine label err].
Proof.
  intros Hroute.
  assert (Hcases : genericOutcome (outcome (app fw req env db))
                   \/ outcome (app fw req env db) = frameworkError 400 URIError).
  { unfold app, dispatch, withParam. rewrite Hroute.
    destruct (bool_decide (method req = OPTIONS)); [left; generic_outcome|].
    destruct route; try destruct (decodeURIComponent fw segment) eqn:Hdecode;
      first [ right; reflexivity
            | left; apply run_allOutcomes;
              first [ generic_outcome
                    | apply get_api_quotes_random_generic | apply get_api_todos_generic
                    | apply post_api_quotes_generic | apply post_api_todos_generic
                    | apply patch_api_todos_id_generic
                    | apply delete_api_todos_id_generic ] ]. }
  destruct Hcases as [Hgen | Hout].
  - unfold genericOutcome in Hgen. intros Hreply. by rewrite Hreply in Hgen.
  - rewrite Hout. discriminate.
Qed.

Lemma server_errors_are_generic_witness :
  apiRoute (method deleteAbc) (path deleteAbc) = Some (DeleteTodoRoute (js "abc")) /\
  reply (outcome (app bareBundle deleteAbc (online 9) oneTodoDb)) =
    Sent 500 (Message "Failed to delete todo") /\
  exists message label err,
    Message "Failed to delete todo" = Message message /\ message ∈ genericMessages
    /\ logged (outcome (app bareBundle deleteAbc (online 9) oneTodoDb)) =
         [ErrorLine label err].
Proof.
  assert (H1 : apiRoute (method deleteAbc) (path deleteAbc) =
               Some (DeleteTodoRoute (js "abc"))) by (vm_compute; reflexivity).
  assert (H2 : reply (outcome (app bareBundle deleteAbc (online 9) oneTodoDb)) =
               Sent 500 (Message "Failed to delete todo")) by (vm_compute; reflexivity).
  split; [exact H1|]. split; [exact H2|].
  exact (server_errors_are_generic bareBundle deleteAbc (online 9) oneTodoDb
           (DeleteTodoRoute (js "abc")) _ H1 H2).
Defined.

Ltac answered_outcome := cbn; intros ?; discriminate.

Lemma get_api_quotes_random_answered : allOutcomes answered get_api_quotes_random.
Proof. intros [[|doc0 docs]|err]; answered_outcome. Qed.

Lemma get_api_todos_answered : allOutcomes answered get_api_todos.
Proof. intros [ds|err]; answered_outcome. Qed.

Lemma post_api_quotes_answered body : allOutcomes answered (post_api_quotes body).
Proof.
  unfold post_api_quotes, tryCatch, mbind, Completion_bind, mret, Completion_ret.
  cbv zeta. repeat case_match; simplify_eq; try answered_outcome;
    intros [result|err]; answered_outcome.
Qed.

Lemma patch_api_todos_id_answered id body : allOutcomes answered (patch_api_todos_id id body).
Proof.
  unfold patch_api_todos_id, collectUpdates.
  repeat case_match; simplify_eq; try answered_outcome;
    intros [[todo|]|err]; answered_outcome.
Qed.

Lemma delete_api_todos_id_answered id : allOutcomes answered (delete_api_todos_id id).
Proof. intros [[todo|]|err]; answered_outcome. Qed.

Lemma post_api_todos_unanswered body env db e :
  reply (outcome (run (post_api_todos body) env db)) = Unhandled e ->
  e = TypeError
  /\ truthy (optProp body (js "text")) = true
  /\ typeof (optProp body (js "text")) <> TypeString.
Proof.
  unfold post_api_todos, orReject, tryCatch, mbind, Completion_bind, mret, Completion_ret,
    orElse.
  destruct (truthy (optProp body (js "text"))) eqn:Htruthy.
  - destruct (optProp body (js "text")) eqn:Htext; cbn;
      try (intros [= <-]; repeat split; discriminate).
    destruct (isEmpty (trim s)); [cbn; discriminate|].
    rewrite run_await. destruct (exec (Todo_create (trim s)) env db) as [[todo|err] db'];
      cbn; discriminate.
  - cbn. discriminate.
Qed.

(** X6: POST /api/todos is the only API route that can leave a request
    without a response, and it does so exactly on a [text] that is truthy
    and not a string, the exception being the [TypeError] of [trim]. *)
Theorem only_create_todo_goes_unanswered fw req env db route e :
  apiRoute (method req) (path req) = Some route ->
  reply (outcome (app fw req env db)) = Unhandled e ->
  route = CreateTodoRoute
  /\ e = TypeError
  /\ truthy (optProp (body req) (js "text")) = true
  /\ typeof (optProp (body req) (js "text")) <> TypeString.
Proof.
  intros Hroute. unfold app, dispatch, withParam. rewrite Hroute.
  destruct (bool_decide (method req = OPTIONS)); [discriminate|].
  destruct route; try destruct (decodeURIComponent fw segment);
    try (intros Hreply; exfalso; revert Hreply; cbn; discriminate);
    try (intros Hreply; exfalso; revert e Hreply;
         apply (run_allOutcomes answered);
         first [ apply get_api_quotes_random_answered | apply get_api_todos_answered
               | apply post_api_quotes_answered | apply patch_api_todos_id_answered
               | apply delete_api_todos_id_answered ]).
  intros Hreply. split; [reflexivity|]. by eapply post_api_todos_unanswered.
Qed.

Lemma only_create_todo_goes_unanswered_witness :
  apiRoute (method postNumericTodo) (path postNumericTodo) = Some CreateTodoRoute /\
  reply (outcome (app bareBundle postNumericTodo (online 9) oneTodoDb)) = Unhandled TypeError /\
  truthy (optProp (body postNumericTodo) (js "text")) = true /\
  typeof (optProp (body postNumericTodo) (js "text")) <> TypeString.
Proof.
  assert (H1 : apiRoute (method postNumericTodo) (path postNumericTodo) =
               Some CreateTodoRoute) by (vm_compute; reflexivity).
  assert (H2 : reply (outcome (app bareBundle postNumericTodo (online 9) oneTodoDb)) =
               Unhandled TypeError) by (vm_compute; reflexivity).
  split; [exact H1|]. split; [exact H2|].
  exact (proj2 (proj2 (only_create_todo_goes_unanswered bareBundle postNumericTodo
                         (online 9) oneTodoDb CreateTodoRoute TypeError H1 H2))).
Defined.

(** ** More of PATCH /api/todos/:id *)

(** X7: a PATCH whose [text] is a string that trims to nothing is answered
    400 "Text cannot be empty" before any store call, whatever else the
    body holds. *)
Theorem patch_blank_text env db id body s :
  optProp body (js "text") = JStr s ->
  trim s = [] ->
  run (patch_api_todos_id id body) env db =
    {| outcome := respond 400 (Message "Text cannot be empty");
       final := db; issued := [] |}.
Proof.
  intros Htext Hblank. unfold patch_api_todos_id, collectUpdates.
  rewrite Htext. cbn -[trim]. rewrite Hblank. reflexivity.
Qed.

Lemma patch_blank_text_witness :
  optProp blankAndDoneBody (js "text") = JStr (js "   ") /\
  trim (js "   ") = [] /\
  run (patch_api_todos_id sampleId blankAndDoneBody) (online 9) oneTodoDb =
    {| outcome := respond 400 (Message "Text cannot be empty");
       final := oneTodoDb; issued := [] |}.
Proof.
  assert (H1 : optProp blankAndDoneBody (js "text") = JStr (js "   ")) by reflexivity.
  assert (H2 : trim (js "   ") = []) by reflexivity.
  split; [exact H1|]. split; [exact H2|].
  exact (patch_blank_text (online 9) oneTodoDb sampleId blankAndDoneBody (js "   ") H1 H2).
Defined.

Lemma validateUpdateText_trimmed s :
  trim s <> [] -> validateUpdateText (Some (trim s)) = Normal (Some (trim s)).
Proof.
  intros Hne. unfold validateUpdateText. by rewrite validateTodoText_trimmed.
Qed.

(** X8: a PATCH with a non-blank string [text], a well-formed identifier
    and the store reachable.  If the todo exists it is answered 200 with
    the document after the update: the text is the trimmed input,
    [completed] changes only if the body gives a boolean, [createdAt] is
    kept and [updatedAt] is the time of the write; no other todo and no
    quote changes.  If the todo does not exist the answer is 404 and the
    store is left as it was. *)
Theorem patch_applies_text env db id body s oid :
  optProp body (js "text") = JStr s ->
  trim s <> [] ->
  connected env = true ->
  castObjectId id = Some oid ->
  match todos db !! oid with
  | Some d =>
      reply (outcome (run (patch_api_todos_id id body) env db)) =
        Sent 200 (TodoJson (Build_Stored oid
          {| Todo.text := trim s;
             Todo.completed := match optProp body (js "completed") with
                               | JBool b => b
                               | _ => Todo.completed d
                               end;
             Todo.createdAt := Todo.createdAt d;
             Todo.updatedAt := now env |}))
      /\ todos (final (run (patch_api_todos_id id body) env db)) !! oid =
           Some {| Todo.text := trim s;
                   Todo.completed := match optProp body (js "completed") with
                                     | JBool b => b
                                     | _ => Todo.completed d
                                     end;
                   Todo.createdAt := Todo.createdAt d;
                   Todo.updatedAt := now env |}
      /\ (forall other, other <> oid ->
            todos (final (run (patch_api_todos_id id body) env db)) !! other =
              todos db !! other)
      /\ quotes (final (run (patch_api_todos_id id body) env db)) = quotes db
  | None =>
      reply (outcome (run (patch_api_todos_id id body) env db)) =
        Sent 404 (Message "Todo not found")
      /\ final (run (patch_api_todos_id id body) env db) = db
  end.
Proof.
  intros Htext Hne Hconn Hid. unfold patch_api_todos_id, collectUpdates.
  rewrite Htext. cbn -[trim js]. rewrite (isEmpty_false _ Hne).
  cbn -[trim js castObjectId validateUpdateText].
  rewrite Hid, (validateUpdateText_trimmed s Hne), Hconn.
  destruct (todos db !! oid) as [d|] eqn:Hd; cbn -[trim js].
  - destruct (optProp body (js "completed")); cbn -[trim js];
      (split; [reflexivity|]; split; [apply lookup_insert_eq|]; split; [|reflexivity];
       intros other Hother; by rewrite lookup_insert_ne).
  - split; reflexivity.
Qed.

Lemma patch_applies_text_witness :
  optProp milkBody (js "text") = JStr (js "  buy milk ") /\
  trim (js "  buy milk ") <> [] /\
  connected (online 250) = true /\
  castObjectId sampleId = Some sampleOid /\
  reply (outcome (run (patch_api_todos_id sampleId milkBody) (online 250) oneTodoDb)) =
    Sent 200 (TodoJson (Build_Stored sampleOid
      {| Todo.text := trim (js "  buy milk "); Todo.completed := false;
         Todo.createdAt := 100; Todo.updatedAt := 250 |})).
Proof.
  assert (H1 : optProp milkBody (js "text") = JStr (js "  buy milk ")) by reflexivity.
  assert (H2 : trim (js "  buy milk ") <> []) by (vm_compute; discriminate).
  assert (H3 : connected (online 250) = true) by reflexivity.
  assert (H4 : castObjectId sampleId = Some sampleOid) by reflexivity.
  repeat (split; [assumption|]).
  exact (proj1 (patch_applies_text (online 250) oneTodoDb sampleId milkBody
                  (js "  buy milk ") sampleOid H1 H2 H3 H4)).
Defined.

(** ** More of POST /api/quotes *)

Lemma mapM_Normal_length {A B} (f : A -> Completion B) l k :
  mapM f l = Normal k -> length k = length l.
Proof.
  revert k. induction l as [|x l IH]; intros k; cbn.
  - by intros [= <-].
  - unfold mbind, Completion_bind. destruct (f x); [|discriminate].
    destruct (mapM f l) as [k'|]; [|discriminate].
    intros [= <-]. cbn. by rewrite (IH k').
Qed.

Lemma insertQuotes_spec t qs (m : gmap ObjectId Quote.doc) :
  length (insertQuotes t qs m).1 = length qs
  /\ size (insertQuotes t qs m).2 = (size m + length qs)%nat
  /\ (forall d, d ∈ (insertQuotes t qs m).1 ->
        m !! _id d = None /\ (insertQuotes t qs m).2 !! _id d = Some (fields d))
  /\ (fun d => (Quote.text (fields d), Quote.author (fields d)))
       <$> (insertQuotes t qs m).1 = qs.
Proof.
  revert m. induction qs as [|q qs IH]; intros m; cbn.
  - split; [reflexivity|]. split; [lia|]. split; [|reflexivity].
    intros d Hd. by apply elem_of_nil in Hd.
  - set (d0 := {| Quote.text := q.1; Quote.author := q.2;
                  Quote.createdAt := t; Quote.updatedAt := t |}).
    specialize (IH (<[fresh (dom m) := d0]> m)).
    pose proof (insertQuotes_keeps t qs (<[fresh (dom m) := d0]> m) (fresh (dom m)) d0
                  (lookup_insert_eq _ _ _)) as Hkept.
    destruct (insertQuotes t qs (<[fresh (dom m) := d0]> m)) as [ds m2]. cbn in *.
    destruct IH as (Hlen & Hsize & Hin & Htexts).
    split; [by rewrite Hlen|]. split.
    { rewrite Hsize, map_size_insert_None by apply fresh_quote_id. lia. }
    split.
    + intros d [-> | Hd]%elem_of_cons; cbn.
      * split; [apply fresh_quote_id | exact Hkept].
      * destruct (Hin d Hd) as [Hnone Hsome]. split; [|exact Hsome].
        by apply lookup_insert_None in Hnone as [Hnone _].
    + rewrite Htexts. by destruct q.
Qed.

(** X9: a batch whose elements are all accepted by the schema, with the
    store reachable, is answered 201 with one document per element, in
    order, each under an identifier that was free and now holds that
    document; the collection grows by exactly the number of elements and
    the todos are not touched. *)
Theorem batch_inserts_every_quote env db body elems docs qs :
  optProp body (js "quotes") = JArr elems ->
  mapM quoteInputOf elems = Normal docs ->
  mapM validateQuote docs = Normal qs ->
  connected env = true ->
  exists ds,
    reply (outcome (run (post_api_quotes body) env db)) = Sent 201 (QuotesJson ds)
    /\ issued (run (post_api_quotes body) env db) = [issue (Quote_insertMany docs)]
    /\ length ds = length elems
    /\ (fun d => (Quote.text (fields d), Quote.author (fields d))) <$> ds = qs
    /\ (forall d, d ∈ ds ->
          quotes db !! _id d = None
          /\ quotes (final (run (post_api_quotes body) env db)) !! _id d = Some (fields d))
    /\ size (quotes (final (run (post_api_quotes body) env db))) =
         (size (quotes db) + length elems)%nat
    /\ todos (final (run (post_api_quotes body) env db)) = todos db.
Proof.
  intros Hq Hdocs Hqs Hconn.
  pose proof (mapM_Normal_length _ _ _ Hdocs) as Hlen1.
  pose proof (mapM_Normal_length _ _ _ Hqs) as Hlen2.
  unfold post_api_quotes. rewrite !source_prop, Hq.
  cbn -[mapM exec quoteInputOf]. rewrite Hdocs.
  cbn -[mapM insertQuotes validateQuote]. rewrite Hqs.
  destruct qs as [|q qs].
  - exists []. destruct docs as [|x docs]; [|discriminate Hlen2].
    destruct elems as [|e elems]; [|discriminate Hlen1].
    cbn. repeat split; try reflexivity; try lia;
      exfalso; eapply elem_of_nil; eassumption.
  - rewrite Hconn.
    destruct (insertQuotes_spec (now env) (q :: qs) (quotes db)) as (Hl & Hs & Hin & Ht).
    destruct (insertQuotes (now env) (q :: qs) (quotes db)) as [ds m2]. cbn -[length] in *.
    exists ds. repeat split; try reflexivity; try (by apply Hin); congruence.
Qed.

Lemma batch_inserts_every_quote_witness :
  optProp twoQuotesBody (js "quotes") = JArr twoQuotesElems /\
  mapM quoteInputOf twoQuotesElems = Normal twoQuotesDocs /\
  mapM validateQuote twoQuotesDocs = Normal twoQuotesClean /\
  connected (online 70) = true /\
  exists ds,
    reply (outcome (run (post_api_quotes twoQuotesBody) (online 70) oneQuoteDb)) =
      Sent 201 (QuotesJson ds)
    /\ length ds = length twoQuotesElems
    /\ size (quotes (final (run (post_api_quotes twoQuotesBody) (online 70) oneQuoteDb))) =
         (size (quotes oneQuoteDb) + length twoQuotesElems)%nat.
Proof.
  assert (H1 : optProp twoQuotesBody (js "quotes") = JArr twoQuotesElems) by reflexivity.
  assert (H2 : mapM quoteInputOf twoQuotesElems = Normal twoQuotesDocs) by reflexivity.
  assert (H3 : mapM validateQuote twoQuotesDocs = Normal twoQuotesClean) by reflexivity.
  assert (H4 : connected (online 70) = true) by reflexivity.
  repeat (split; [assumption|]).
  destruct (batch_inserts_every_quote (online 70) oneQuoteDb twoQuotesBody twoQuotesElems
              twoQuotesDocs twoQuotesClean H1 H2 H3 H4)
    as (ds & Hreply & _ & Hlen & _ & _ & Hsize & _).
  exists ds. repeat split; assumption.
Defined.

(** X10: a batch with an element the schema refuses is answered 500 and
    writes nothing at all, the accepted elements included. *)
Theorem batch_is_all_or_nothing env db body elems docs err :
  optProp body (js "quotes") = JArr elems ->
  mapM quoteInputOf elems = Normal docs ->
  mapM validateQuote docs = Throw err ->
  run (post_api_quotes body) env db =
    {| outcome := serverError "Failed to insert quotes:" err "Failed to insert quotes";
       final := db; issued := [issue (Quote_insertMany docs)] |}.
Proof.
  intros Hq Hdocs Hqs. unfold post_api_quotes. rewrite !source_prop, Hq.
  cbn -[mapM exec quoteInputOf]. rewrite Hdocs.
  cbn -[mapM insertQuotes validateQuote]. rewrite Hqs. reflexivity.
Qed.

Lemma batch_is_all_or_nothing_witness :
  optProp mixedBatchBody (js "quotes") = JArr mixedBatchElems /\
  mapM quoteInputOf mixedBatchElems = Normal mixedBatchDocs /\
  mapM validateQuote mixedBatchDocs = Throw ValidationError /\
  run (post_api_quotes mixedBatchBody) (online 70) oneQuoteDb =
    {| outcome := serverError "Failed to insert quotes:" ValidationError
                              "Failed to insert quotes";
       final := oneQuoteDb; issued := [issue (Quote_insertMany mixedBatchDocs)] |}.
Proof.
  assert (H1 : optProp mixedBatchBody (js "quotes") = JArr mixedBatchElems) by reflexivity.
  assert (H2 : mapM quoteInputOf mixedBatchElems = Normal mixedBatchDocs) by reflexivity.
  assert (H3 : mapM validateQuote mixedBatchDocs = Throw ValidationError) by reflexivity.
  repeat (split; [assumption|]).
  exact (batch_is_all_or_nothing (online 70) oneQuoteDb mixedBatchBody mixedBatchElems
           mixedBatchDocs ValidationError H1 H2 H3).
Defined.

Lemma quoteInputOf_throws q e : quoteInputOf q = Throw e -> e = TypeError.
Proof.
  unfold quoteInputOf, mbind, Completion_bind, mret, Completion_ret.
  destruct q; cbn; congruence.
Qed.

Lemma mapM_cons_Completion {A B} (f : A -> Completion B) x l :
  mapM f (x :: l) =
    match f x with
    | Normal y =>
        match mapM f l with
        | Normal k => Normal (y :: k)
        | Throw e => Throw e
        end
    | Throw e => Throw e
    end.
Proof. reflexivity. Qed.

Lemma mapM_quoteInputOf_nullish elems q :
  q ∈ elems -> getProp q (js "text") = Throw TypeError ->
  mapM quoteInputOf elems = Throw TypeError.
Proof.
  intros Hin Hq. induction elems as [|x elems IH]; [by apply elem_of_nil in Hin|].
  rewrite mapM_cons_Completion.
  destruct (quoteInputOf x) as [i|e] eqn:Hx.
  - apply elem_of_cons in Hin as [-> | Hin].
    + unfold quoteInputOf in Hx. rewrite Hq in Hx. discriminate.
    + by rewrite (IH Hin).
  - by rewrite (quoteInputOf_throws x e Hx).
Qed.

(** X11: a batch with a [null] (or [undefined]) element is answered 500
    without any store call: reading [text] off that element throws inside
    the [try]. *)
Theorem batch_with_null_element env db body elems q :
  optProp body (js "quotes") = JArr elems ->
  q ∈ elems ->
  q = JNull \/ q = JUndefined ->
  run (post_api_quotes body) env db =
    {| outcome := serverError "Failed to insert quotes:" TypeError "Failed to insert quotes";
       final := db; issued := [] |}.
Proof.
  intros Hq Hin Hnull. unfold post_api_quotes. rewrite !source_prop, Hq.
  cbn -[mapM exec quoteInputOf].
  rewrite (mapM_quoteInputOf_nullish elems q Hin) by (by destruct Hnull as [-> | ->]).
  reflexivity.
Qed.

Lemma batch_with_null_element_witness :
  optProp nullBatchBody (js "quotes") = JArr nullBatchElems /\
  JNull ∈ nullBatchElems /\
  run (post_api_quotes nullBatchBody) (online 70) oneQuoteDb =
    {| outcome := serverError "Failed to insert quotes:" TypeError "Failed to insert quotes";
       final := oneQuoteDb; issued := [] |}.
Proof.
  assert (H1 : optProp nullBatchBody (js "quotes") = JArr nullBatchElems) by reflexivity.
  assert (H2 : JNull ∈ nullBatchElems)
    by (apply list_elem_of_In; simpl; tauto).
  split; [exact H1|]. split; [exact H2|].
  exact (batch_with_null_element (online 70) oneQuoteDb nullBatchBody nullBatchElems JNull
           H1 H2 (or_introl eq_refl)).
Defined.

Lemma post_api_quotes_single body :
  (forall elems, optProp body (js "quotes") <> JArr elems) ->
  post_api_quotes body =
    tryCatch
      (t ← callTrim (orElse (optProp body (js "text")) (JStr []));
       if isEmpty t then mret (Return (respond 400 (Message "Text is required")))
       else mret (Await (Quote_create {| in_text := JStr t;
                                         in_author := optProp body (js "author") |})
                    (fun settled =>
                       match settled with
                       | Fulfilled result => Return (respond 201 (QuoteJson result))
                       | Rejected err =>
                           Return (serverError "Failed to insert quotes:" err
                                               "Failed to insert quotes")
                       end)))
      (fun err => Return (serverError "Failed to insert quotes:" err
                                      "Failed to insert quotes")).
Proof.
  intros Hq. unfold post_api_quotes. rewrite !source_prop.
  destruct (optProp body (js "quotes")) as [| | | | |elems|]; try reflexivity.
  by destruct (Hq elems).
Qed.

(** X12: the single-quote form of POST /api/quotes with a non-blank string
    [text], an [author] the schema can cast, and the store reachable: one
    quote is stored under a new identifier, with the trimmed text, the
    trimmed author if there is one, and both timestamps set, and it is
    returned with 201. *)
Theorem create_quote env db body s a :
  (forall elems, optProp body (js "quotes") <> JArr elems) ->
  optProp body (js "text") = JStr s ->
  trim s <> [] ->
  castTrimmed (optProp body (js "author")) = Normal a ->
  connected env = true ->
  exists id,
    quotes db !! id = None /\
    run (post_api_quotes body) env db =
      {| outcome := respond 201 (QuoteJson (Build_Stored id
                      {| Quote.text := trim s; Quote.author := a;
                         Quote.createdAt := now env; Quote.updatedAt := now env |}));
         final := {| quotes := <[id := {| Quote.text := trim s; Quote.author := a;
                                          Quote.createdAt := now env;
                                          Quote.updatedAt := now env |}]> (quotes db);
                     todos := todos db |};
         issued := [issue (Quote_create {| in_text := JStr (trim s);
                                           in_author := optProp body (js "author") |})] |}.
Proof.
  intros Hq Htext Hne Hauthor Hconn. exists (fresh (dom (quotes db))).
  split; [apply fresh_quote_id|].
  rewrite (post_api_quotes_single body Hq), Htext.
  assert (Htrim : callTrim (orElse (JStr s) (JStr [])) = Normal (trim s))
    by (destruct s; reflexivity).
  rewrite Htrim. cbn -[trim castTrimmed js]. rewrite (isEmpty_false _ Hne).
  cbn -[trim castTrimmed js validateQuote].
  assert (Hvalid : validateQuote {| in_text := JStr (trim s);
                                    in_author := optProp body (js "author") |} =
                   Normal (trim s, a)).
  { unfold validateQuote. cbn -[trim castTrimmed js]. rewrite Hauthor.
    unfold castTrimmed at 1. cbn -[trim]. rewrite trim_idem.
    destruct (trim s); [congruence | reflexivity]. }
  rewrite Hvalid, Hconn. reflexivity.
Qed.

Lemma create_quote_witness :
  (forall elems, optProp thalesBody (js "quotes") <> JArr elems) /\
  optProp thalesBody (js "text") = JStr (js " Know thyself ") /\
  trim (js " Know thyself ") <> [] /\
  castTrimmed (optProp thalesBody (js "author")) = Normal (Some (js "Thales")) /\
  connected (online 70) = true /\
  exists id,
    quotes oneQuoteDb !! id = None /\
    reply (outcome (run (post_api_quotes thalesBody) (online 70) oneQuoteDb)) =
      Sent 201 (QuoteJson (Build_Stored id
        {| Quote.text := trim (js " Know thyself "); Quote.author := Some (js "Thales");
           Quote.createdAt := 70; Quote.updatedAt := 70 |})).
Proof.
  assert (H1 : forall elems, optProp thalesBody (js "quotes") <> JArr elems)
    by (intros elems; vm_compute; discriminate).
  assert (H2 : optProp thalesBody (js "text") = JStr (js " Know thyself ")) by reflexivity.
  assert (H3 : trim (js " Know thyself ") <> []) by (vm_compute; discriminate).
  assert (H4 : castTrimmed (optProp thalesBody (js "author")) = Normal (Some (js "Thales")))
    by reflexivity.
  assert (H5 : connected (online 70) = true) by reflexivity.
  repeat (split; [assumption|]).
  destruct (create_quote (online 70) oneQuoteDb thalesBody (js " Know thyself ")
              (Some (js "Thales")) H1 H2 H3 H4 H5) as (id & Hfree & Hrun).
  exists id. split; [exact Hfree|]. by rewrite Hrun.
Defined.

(** X13: in the single-quote form, a [text] that is truthy and not a
    string makes [trim] throw inside the [try]: the request is answered
    500 "Failed to insert quotes" and no store call is made. *)
Theorem quote_non_string_text env db body :
  (forall elems, optProp body (js "quotes") <> JArr elems) ->
  truthy (optProp body (js "text")) = true ->
  typeof (optProp body (js "text")) <> TypeString ->
  run (post_api_quotes body) env db =
    {| outcome := serverError "Failed to insert quotes:" TypeError "Failed to insert quotes";
       final := db; issued := [] |}.
Proof.
  intros Hq Htruthy Htype. rewrite (post_api_quotes_single body Hq).
  unfold orElse. rewrite Htruthy.
  destruct (optProp body (js "text")); simpl in Htype; try congruence; reflexivity.
Qed.

Lemma quote_non_string_text_witness :
  (forall elems, optProp numberBody (js "quotes") <> JArr elems) /\
  truthy (optProp numberBody (js "text")) = true /\
  typeof (optProp numberBody (js "text")) <> TypeString /\
  run (post_api_quotes numberBody) (online 70) oneQuoteDb =
    {| outcome := serverError "Failed to insert quotes:" TypeError "Failed to insert quotes";
       final := oneQuoteDb; issued := [] |}.
Proof.
  assert (H1 : forall elems, optProp numberBody (js "quotes") <> JArr elems)
    by (intros elems; vm_compute; discriminate).
  assert (H2 : truthy (optProp numberBody (js "text")) = true) by reflexivity.
  assert (H3 : typeof (optProp numberBody (js "text")) <> TypeString)
    by (vm_compute; discriminate).
  repeat (split; [assumption|]).
  exact (quote_non_string_text (online 70) oneQuoteDb numberBody H1 H2 H3).
Defined.

(** X14: a [text] that is missing or falsy ([undefined], [null], [false],
    [0], the empty string; also a missing body) counts as empty: POST
    /api/todos, and POST /api/quotes in its single-quote form, answer 400
    "Text is required" and make no store call. *)
Theorem missing_text_is_rejected env db body :
  truthy (optProp body (js "text")) = false ->
  run (post_api_todos body) env db =
    {| outcome := respond 400 (Message "Text is required"); final := db; issued := [] |}
  /\ ((forall elems, optProp body (js "quotes") <> JArr elems) ->
      run (post_api_quotes body) env db =
        {| outcome := respond 400 (Message "Text is required");
           final := db; issued := [] |}).
Proof.
  intros Hfalsy. split.
  - unfold post_api_todos, orElse. rewrite Hfalsy. reflexivity.
  - intros Hq. rewrite (post_api_quotes_single body Hq).
    unfold orElse. rewrite Hfalsy. reflexivity.
Qed.

Lemma missing_text_is_rejected_witness :
  truthy (optProp noTextBody (js "text")) = false /\
  (forall elems, optProp noTextBody (js "quotes") <> JArr elems) /\
  run (post_api_todos noTextBody) (online 70) oneTodoDb =
    {| outcome := respond 400 (Message "Text is required");
       final := oneTodoDb; issued := [] |} /\
  run (post_api_quotes noTextBody) (online 70) oneTodoDb =
    {| outcome := respond 400 (Message "Text is required");
       final := oneTodoDb; issued := [] |}.
Proof.
  assert (H1 : truthy (optProp noTextBody (js "text")) = false) by reflexivity.
  assert (H2 : forall elems, optProp noTextBody (js "quotes") <> JArr elems)
    by (intros elems; vm_compute; discriminate).
  split; [exact H1|]. split; [exact H2|].
  destruct (missing_text_is_rejected (online 70) oneTodoDb noTextBody H1) as [Htodo Hquote].
  split; [exact Htodo | exact (Hquote H2)].
Defined.

(** ** Requests in sequence *)

Lemma post_api_todos_created body env db created :
  reply (outcome (run (post_api_todos body) env db)) = Sent 201 (TodoJson created) ->
  todos db !! _id created = None
  /\ Todo.completed (fields created) = false
  /\ (exists s, optProp body (js "text") = JStr s /\ Todo.text (fields created) = trim s)
  /\ final (run (post_api_todos body) env db) =
       {| quotes := quotes db; todos := <[_id created := fields created]> (todos db) |}.
Proof.
  unfold post_api_todos, orReject, tryCatch, mbind, Completion_bind, mret, Completion_ret,
    orElse.
  destruct (truthy (optProp body (js "text"))) eqn:Htruthy; [|cbn; discriminate].
  destruct (optProp body (js "text")) as [| | | |s| |] eqn:Htext; cbn -[trim];
    try discriminate.
  destruct (isEmpty (trim s)) eqn:Hempty; [cbn; discriminate|].
  assert (Hne : trim s <> []) by (destruct (trim s); [discriminate | congruence]).
  cbn -[trim validateTodoText]. rewrite (validateTodoText_trimmed s Hne).
  destruct (connected env); cbn -[trim]; [|discriminate].
  intros [= <-]. cbn -[trim].
  split; [apply fresh_todo_id|]. split; [reflexivity|]. split; [|reflexivity].
  exists s. split; reflexivity.
Qed.

(** X15: deleting a todo right after creating it undoes the creation: if
    POST /api/todos answered 201 with a document and DELETE is then called
    with that document's identifier, the answer is 200 and the store is
    exactly what it was before the two requests. *)
Theorem create_then_delete env1 env2 db body id created :
  connected env2 = true ->
  reply (outcome (run (post_api_todos body) env1 db)) = Sent 201 (TodoJson created) ->
  castObjectId id = Some (_id created) ->
  reply (outcome (run (delete_api_todos_id id) env2
                      (final (run (post_api_todos body) env1 db)))) =
    Sent 200 (Deleted "Todo deleted" id)
  /\ final (run (delete_api_todos_id id) env2
                (final (run (post_api_todos body) env1 db))) = db.
Proof.
  intros Hconn Hcreated Hid.
  destruct (post_api_todos_created body env1 db created Hcreated) as (Hfree & _ & _ & ->).
  cbn -[castObjectId]. rewrite Hid, Hconn. cbn. rewrite lookup_insert_eq. cbn.
  split; [reflexivity|]. rewrite delete_insert_id by exact Hfree. by destruct db.
Qed.

Lemma create_then_delete_witness :
  connected (online 20) = true /\
  reply (outcome (run (post_api_todos milkBody) (online 10) emptyDb)) =
    Sent 201 (TodoJson (Build_Stored 0%N
      {| Todo.text := js "buy milk"; Todo.completed := false;
         Todo.createdAt := 10; Todo.updatedAt := 10 |})) /\
  castObjectId zeroId = Some 0%N /\
  final (run (delete_api_todos_id zeroId) (online 20)
             (final (run (post_api_todos milkBody) (online 10) emptyDb))) = emptyDb.
Proof.
  assert (H1 : connected (online 20) = true) by reflexivity.
  assert (H2 : reply (outcome (run (post_api_todos milkBody) (online 10) emptyDb)) =
    Sent 201 (TodoJson (Build_Stored 0%N
      {| Todo.text := js "buy milk"; Todo.completed := false;
         Todo.createdAt := 10; Todo.updatedAt := 10 |}))) by (vm_compute; reflexivity).
  assert (H3 : castObjectId zeroId = Some 0%N) by reflexivity.
  repeat (split; [assumption|]).
  exact (proj2 (create_then_delete (online 10) (online 20) emptyDb milkBody zeroId _ H1 H2 H3)).
Defined.

Lemma stored_insert {D} (m : gmap ObjectId D) id d :
  m !! id = None -> stored (<[id := d]> m) ≡ₚ (Build_Stored id d :: stored m).
Proof.
  intros Hfree. unfold stored. by rewrite map_to_list_insert.
Qed.

(** X16: after POST /api/todos has answered 201 with a document, GET
    /api/todos lists that document once more than before and otherwise
    the same todos; the new entry has [completed] false and the trimmed
    text of the request. *)
Theorem create_then_list env1 env2 db body created :
  connected env2 = true ->
  reply (outcome (run (post_api_todos body) env1 db)) = Sent 201 (TodoJson created) ->
  exists before after,
    reply (outcome (run get_api_todos env2 db)) = Sent 200 (TodosJson before)
    /\ reply (outcome (run get_api_todos env2 (final (run (post_api_todos body) env1 db)))) =
         Sent 200 (TodosJson after)
    /\ after ≡ₚ (created :: before)
    /\ (created ∉ before)
    /\ Todo.completed (fields created) = false
    /\ exists s, optProp body (js "text") = JStr s /\ Todo.text (fields created) = trim s.
Proof.
  intros Hconn Hcreated.
  destruct (post_api_todos_created body env1 db created Hcreated)
    as (Hfree & Hdone & Htext & ->).
  exists (merge_sort newerFirst (stored (todos db))),
         (merge_sort newerFirst (stored (<[_id created := fields created]> (todos db)))).
  rewrite !(list_todos_run _ _ Hconn). cbn -[merge_sort].
  split; [reflexivity|]. split; [reflexivity|]. split.
  - rewrite !merge_sort_Permutation, (stored_insert _ _ _ Hfree). by destruct created.
  - split; [|by split].
    rewrite (merge_sort_Permutation _ _), elem_of_stored. congruence.
Qed.

Lemma create_then_list_witness :
  connected (online 20) = true /\
  reply (outcome (run (post_api_todos milkBody) (online 10) oneTodoDb)) =
    Sent 201 (TodoJson (Build_Stored (fresh (dom (todos oneTodoDb)))
      {| Todo.text := js "buy milk"; Todo.completed := false;
         Todo.createdAt := 10; Todo.updatedAt := 10 |})) /\
  exists before after,
    reply (outcome (run get_api_todos (online 20) oneTodoDb)) = Sent 200 (TodosJson before)
    /\ reply (outcome (run get_api_todos (online 20)
                (final (run (post_api_todos milkBody) (online 10) oneTodoDb)))) =
         Sent 200 (TodosJson after)
    /\ after ≡ₚ (Build_Stored (fresh (dom (todos oneTodoDb)))
                  {| Todo.text := js "buy milk"; Todo.completed := false;
                     Todo.createdAt := 10; Todo.updatedAt := 10 |} :: before).
Proof.
  assert (H1 : connected (online 20) = true) by reflexivity.
  assert (H2 : reply (outcome (run (post_api_todos milkBody) (online 10) oneTodoDb)) =
    Sent 201 (TodoJson (Build_Stored (fresh (dom (todos oneTodoDb)))
      {| Todo.text := js "buy milk"; Todo.completed := false;
         Todo.createdAt := 10; Todo.updatedAt := 10 |}))) by (vm_compute; reflexivity).
  split; [exact H1|]. split; [exact H2|].
  destruct (create_then_list (online 10) (online 20) oneTodoDb milkBody _ H1 H2)
    as (before & after & Hb & Ha & Hperm & _).
  exists before, after. repeat split; assumption.
Defined.

(** X17: DELETE is not repeatable: once a DELETE has been answered 200,
    the same DELETE is answered 404 and changes nothing. *)
Theorem delete_twice env1 env2 db id b :
  connected env2 = true ->
  reply (outcome (run (delete_api_todos_id id) env1 db)) = Sent 200 b ->
  run (delete_api_todos_id id) env2 (final (run (delete_api_todos_id id) env1 db)) =
    {| outcome := respond 404 (Message "Todo not found");
       final := final (run (delete_api_todos_id id) env1 db);
       issued := [issue (Todo_findByIdAndDelete id)] |}.
Proof.
  intros Hconn. unfold delete_api_todos_id. rewrite !run_await.
  cbn -[castObjectId].
  destruct (castObjectId id) as [oid|] eqn:Hid; [|cbn; discriminate].
  destruct (connected env1); [|cbn; discriminate].
  destruct (todos db !! oid) as [d|] eqn:Hd; cbn -[castObjectId]; [|discriminate].
  intros _. rewrite Hconn. cbn. rewrite lookup_delete_eq. reflexivity.
Qed.

Lemma delete_twice_witness :
  connected (online 20) = true /\
  reply (outcome (run (delete_api_todos_id sampleId) (online 10) oneTodoDb)) =
    Sent 200 (Deleted "Todo deleted" sampleId) /\
  reply (outcome (run (delete_api_todos_id sampleId) (online 20)
           (final (run (delete_api_todos_id sampleId) (online 10) oneTodoDb)))) =
    Sent 404 (Message "Todo not found").
Proof.
  assert (H1 : connected (online 20) = true) by reflexivity.
  assert (H2 : reply (outcome (run (delete_api_todos_id sampleId) (online 10) oneTodoDb)) =
               Sent 200 (Deleted "Todo deleted" sampleId)) by (vm_compute; reflexivity).
  split; [exact H1|]. split; [exact H2|].
  by rewrite (delete_twice (online 10) (online 20) oneTodoDb sampleId _ H1 H2).
Defined.

(** ** Routes under /api/todos/ *)


Lemma last_not_slash seg c r : slash ∉ seg -> reverse seg = c :: r -> (c =? slash)%N = false.
Proof.
  intros Hno Hrev. apply N.eqb_neq. intros ->. apply Hno.
  apply elem_of_reverse. rewrite Hrev. apply elem_of_cons. by left.
Qed.

Lemma matchesParam_prefix pattern rest :
  matchesParam pattern (js pattern ++ rest) =
    let segment :=
      match reverse rest with
      | c :: r => if (c =? slash)%N then reverse r else rest
      | [] => rest
      end in
    if isEmpty segment || bool_decide (slash ∈ segment) then None else Some segment.
Proof.
  unfold matchesParam.
  rewrite take_app_length, drop_app_length, bool_decide_eq_true_2 by reflexivity.
  reflexivity.
Qed.

Lemma matchesParam_segment seg :
  seg <> [] -> slash ∉ seg ->
  matchesParam "/api/todos/" (js "/api/todos/" ++ seg) = Some seg
  /\ matchesParam "/api/todos/" (js "/api/todos/" ++ seg ++ [slash]) = Some seg.
Proof.
  intros Hne Hno. rewrite !matchesParam_prefix. split; cbv zeta.
  - destruct (reverse seg) as [|c r] eqn:Hrev.
    + by rewrite (isEmpty_false _ Hne), (bool_decide_eq_false_2 _ Hno).
    + rewrite (last_not_slash seg c r Hno Hrev).
      by rewrite (isEmpty_false _ Hne), (bool_decide_eq_false_2 _ Hno).
  - rewrite reverse_app. change (reverse [slash] ++ reverse seg) with (slash :: reverse seg).
    cbv beta iota. rewrite N.eqb_refl, reverse_involutive.
    by rewrite (isEmpty_false _ Hne), (bool_decide_eq_false_2 _ Hno).
Qed.

(** X18: DELETE and PATCH on [/api/todos/] followed by one non-empty
    segment, with or without a trailing slash, run their handler on the
    decoded segment and on the parsed body; when the segment cannot be
    decoded the framework answers 400 itself and no handler runs. *)
Theorem todo_routes_dispatch fw env db seg b :
  seg <> [] -> slash ∉ seg ->
  forall p, p = js "/api/todos/" ++ seg \/ p = js "/api/todos/" ++ seg ++ [slash] ->
  app fw {| method := DELETE; path := p; body := b |} env db =
    match decodeURIComponent fw seg with
    | Some id => run (delete_api_todos_id id) env db
    | None => {| outcome := frameworkError 400 URIError; final := db; issued := [] |}
    end
  /\ app fw {| method := PATCH; path := p; body := b |} env db =
    match decodeURIComponent fw seg with
    | Some id => run (patch_api_todos_id id b) env db
    | None => {| outcome := frameworkError 400 URIError; final := db; issued := [] |}
    end.
Proof.
  intros Hne Hno p Hp.
  assert (Hm : matchesParam "/api/todos/" p = Some seg).
  { destruct (matchesParam_segment seg Hne Hno) as [H1 H2].
    by destruct Hp as [-> | ->]. }
  assert (Hd : apiRoute DELETE p = Some (DeleteTodoRoute seg))
    by (change (apiRoute DELETE p) with (DeleteTodoRoute <$> matchesParam "/api/todos/" p);
        by rewrite Hm).
  assert (Hu : apiRoute PATCH p = Some (UpdateTodoRoute seg))
    by (change (apiRoute PATCH p) with (UpdateTodoRoute <$> matchesParam "/api/todos/" p);
        by rewrite Hm).
  unfold app, dispatch, withParam. cbn [method path body].
  change (bool_decide (DELETE = OPTIONS)) with false.
  change (bool_decide (PATCH = OPTIONS)) with false.
  rewrite Hd, Hu. split; by destruct (decodeURIComponent fw seg).
Qed.

Lemma todo_routes_dispatch_witness :
  js "abc" <> [] /\ (slash ∉ js "abc") /\
  app bareBundle {| method := DELETE; path := js "/api/todos/" ++ js "abc";
                    body := JUndefined |} (online 9) oneTodoDb =
    run (delete_api_todos_id (js "abc")) (online 9) oneTodoDb.
Proof.
  assert (H1 : js "abc" <> []) by (vm_compute; discriminate).
  assert (H2 : slash ∉ js "abc")
    by (intros H; apply list_elem_of_In in H; vm_compute in H; intuition discriminate).
  split; [exact H1|]. split; [exact H2|].
  exact (proj1 (todo_routes_dispatch bareBundle (online 9) oneTodoDb (js "abc") JUndefined
                  H1 H2 _ (or_introl eq_refl))).
Defined.




(** ** The allowed origins *)

Lemma trimStart_elem s x : x ∈ trimStart s -> x ∈ s.
Proof.
  destruct (trimStart_suffix s) as [pre Hs]. intros Hx.
  rewrite Hs. apply elem_of_app. by right.
Qed.

Lemma trim_elem s x : x ∈ trim s -> x ∈ s.
Proof.
  unfold trim. intros Hx. apply trimStart_elem.
  destruct (trimEnd_prefix (trimStart s)) as [suf Hs]. rewrite Hs.
  apply elem_of_app. by left.
Qed.

Lemma split_nonempty s : split s <> [].
Proof.
  destruct s as [|c s]; cbn; [discriminate|].
  destruct (c =? comma)%N; [discriminate|]. by destruct (split s).
Qed.

Lemma split_no_comma s piece : piece ∈ split s -> comma ∉ piece.
Proof.
  revert piece. induction s as [|c s IH]; intros piece; cbn.
  - intros ->%list_elem_of_singleton. apply not_elem_of_nil.
  - destruct (c =? comma)%N eqn:Hc.
    + intros [-> | Hin]%elem_of_cons; [apply not_elem_of_nil | by apply IH].
    + destruct (split s) as [|p ps] eqn:Hs; [by destruct (split_nonempty s)|].
      intros [-> | Hin]%elem_of_cons.
      * intros [Heq | Hp]%elem_of_cons.
        -- subst c. by rewrite N.eqb_refl in Hc.
        -- apply (IH p); [by left | exact Hp].
      * apply IH. by right.
Qed.

Lemma allowedOrigins_source v :
  allowedOrigins v =
    List.filter (fun origin => truthy (JStr origin)) (trim <$> split (default [] v)).
Proof. by destruct v as [[|c s]|]. Qed.

(** X20: every entry of [allowedOrigins] is non-empty, has no whitespace
    at either end and holds no comma, whatever [CLIENT_ORIGINS] is. *)
Theorem allowed_origins_are_clean v o :
  o ∈ allowedOrigins v -> o <> [] /\ trim o = o /\ comma ∉ o.
Proof.
  rewrite allowedOrigins_source. intros Ho.
  apply list_elem_of_In, filter_In in Ho as [Hin Htruthy].
  apply list_elem_of_In, list_elem_of_fmap in Hin as (piece & -> & Hpiece).
  split; [|split].
  - intros Hnil. by rewrite Hnil in Htruthy.
  - apply trim_idem.
  - intros Hc. apply (split_no_comma _ _ Hpiece). by apply trim_elem.
Qed.

Lemma allowed_origins_are_clean_witness :
  js "https://a.example" ∈ allowedOrigins twoOriginsVar /\
  js "https://a.example" <> [] /\
  trim (js "https://a.example") = js "https://a.example" /\
  (comma ∉ js "https://a.example").
Proof.
  assert (H : js "https://a.example" ∈ allowedOrigins twoOriginsVar)
    by (apply list_elem_of_In; vm_compute; tauto).
  split; [exact H|].
  exact (allowed_origins_are_clean twoOriginsVar (js "https://a.example") H).
Defined.

Lemma trimStart_nil s : trimStart s = [] <-> Forall (fun c => isWhiteSpace c = true) s.
Proof.
  induction s as [|c s IH]; cbn.
  - split; [constructor | reflexivity].
  - destruct (isWhiteSpace c) eqn:Hc.
    + rewrite IH. split; [by constructor | by inversion 1].
    + split; [discriminate | inversion 1; congruence].
Qed.

Lemma trim_nil s : trim s = [] <-> Forall (fun c => isWhiteSpace c = true) s.
Proof.
  split.
  - unfold trim, trimEnd. intros Hnil.
    apply (f_equal (@rev N)) in Hnil. rewrite rev_involutive in Hnil. cbn in Hnil.
    apply trimStart_nil in Hnil. apply Forall_rev in Hnil. rewrite rev_involutive in Hnil.
    destruct (trimStart s) as [|c r] eqn:Hs; [by apply trimStart_nil|].
    apply trimStart_head in Hs. inversion Hnil; congruence.
  - intros Hall. apply trimStart_nil in Hall. unfold trim. by rewrite Hall.
Qed.

Lemma split_Forall (Q : N -> Prop) s :
  Forall (Forall Q) (split s) <-> Forall (fun c => c = comma \/ Q c) s.
Proof.
  induction s as [|c s IH]; cbn.
  - split; intros _; repeat constructor.
  - destruct (c =? comma)%N eqn:Hc.
    + apply N.eqb_eq in Hc. rewrite !Forall_cons, IH. split.
      * intros [_ Hs]. split; [by left | exact Hs].
      * intros [_ Hs]. split; [constructor | exact Hs].
    + apply N.eqb_neq in Hc.
      destruct (split s) as [|p ps] eqn:Hs; [by destruct (split_nonempty s)|].
      rewrite !Forall_cons in *. rewrite <- IH. split.
      * intros [[Hq Hp] Hps]. split; [by right | by split].
      * intros [[Heq | Hq] [Hp Hps]]; [congruence|]. by repeat split.
Qed.

Lemma filter_nil {A} (f : A -> bool) l :
  List.filter f l = [] <-> Forall (fun x => f x = false) l.
Proof.
  induction l as [|x l IH]; cbn.
  - split; [constructor | reflexivity].
  - destruct (f x) eqn:Hx.
    + split; [discriminate | inversion 1; congruence].
    + rewrite IH. split; [by constructor | by inversion 1].
Qed.

(** X21: [cors] is given the wildcard origin exactly when [CLIENT_ORIGINS] is unset or
    holds nothing but commas and whitespace; otherwise it is given the
    list of configured origins. *)
Theorem cors_origin_wildcard v :
  corsOrigin v = AnyOrigin <->
  Forall (fun c => c = comma \/ isWhiteSpace c = true) (default [] v).
Proof.
  rewrite <- split_Forall. unfold corsOrigin. rewrite allowedOrigins_source.
  set (l := split (default [] v)).
  assert (Hlist : List.filter (fun origin => truthy (JStr origin)) (trim <$> l) = []
                  <-> Forall (Forall (fun c => isWhiteSpace c = true)) l).
  { rewrite filter_nil, Forall_fmap. apply Forall_iff. intros piece. cbn.
    rewrite <- trim_nil. by destruct (trim piece). }
  destruct (List.filter _ (trim <$> l)) as [|o rest] eqn:Hf; cbn.
  - split; [intros _; by apply Hlist | reflexivity].
  - split; [discriminate | intros Hall; by apply Hlist in Hall].
Qed.

Lemma cors_origin_wildcard_witness :
  Forall (fun c => c = comma \/ isWhiteSpace c = true) (default [] (Some (js " , ,"))) /\
  corsOrigin (Some (js " , ,")) = AnyOrigin.
Proof.
  assert (H : Forall (fun c => c = comma \/ isWhiteSpace c = true)
                (default [] (Some (js " , ,"))))
    by (vm_compute; repeat (constructor; [first [left; reflexivity | right; reflexivity]|]);
        constructor).
  split; [exact H|].
  exact (proj2 (cors_origin_wildcard (Some (js " , ,"))) H).
Defined.

Lemma list_app_comma_split o r :
  comma ∉ o -> split (o ++ comma :: r) = o :: split r.
Proof.
  induction o as [|c o IH]; intros Hno; cbn.
  - reflexivity.
  - assert (Hc : (c =? comma)%N = false).
    { apply N.eqb_neq. intros ->. apply Hno. by left. }
    rewrite Hc, IH; [reflexivity|]. intros Hin. apply Hno. by right.
Qed.

Lemma split_comma_free o : comma ∉ o -> split o = [o].
Proof.
  induction o as [|c o IH]; intros Hno; cbn; [reflexivity|].
  assert (Hc : (c =? comma)%N = false).
  { apply N.eqb_neq. intros ->. apply Hno. by left. }
  rewrite Hc, IH; [reflexivity|]. intros Hin. apply Hno. by right.
Qed.

Lemma split_joinComma origins :
  origins <> [] -> Forall cleanOrigin origins -> split (joinComma origins) = origins.
Proof.
  induction origins as [|o rest IH]; [done|]. intros _ Hall.
  apply Forall_cons in Hall as [(_ & _ & Hno) Hrest].
  destruct rest as [|o' rest'].
  - by apply split_comma_free.
  - change (joinComma (o :: o' :: rest')) with (o ++ comma :: joinComma (o' :: rest')).
    rewrite (list_app_comma_split _ _ Hno), IH; done.
Qed.

Lemma clean_origins_kept l :
  Forall cleanOrigin l ->
  List.filter (fun origin => truthy (JStr origin)) (trim <$> l) = l.
Proof.
  induction 1 as [|x l (Hne & Htrim & _) _ IH]; [reflexivity|].
  rewrite fmap_cons, Htrim. cbn [List.filter].
  destruct x as [|c x]; [done|]. cbn [truthy]. f_equal. exact IH.
Qed.

(** X22: writing a list of origins, each non-empty, trimmed and free of
    commas, into [CLIENT_ORIGINS] with commas between them gives back
    exactly that list as [allowedOrigins], in the same order. *)
Theorem allowed_origins_round_trip origins :
  Forall cleanOrigin origins -> allowedOrigins (Some (joinComma origins)) = origins.
Proof.
  intros Hall. rewrite allowedOrigins_source.
  change (default [] (Some (joinComma origins))) with (joinComma origins).
  destruct origins as [|o rest]; [reflexivity|].
  rewrite split_joinComma by done. by apply clean_origins_kept.
Qed.

Lemma cleanOrigin_example : Forall cleanOrigin [js "https://a.example"; js "https://b.example"].
Proof.
  repeat constructor; try (vm_compute; discriminate);
    intros H; apply list_elem_of_In in H; vm_compute in H; intuition discriminate.
Qed.

Lemma allowed_origins_round_trip_witness :
  Forall cleanOrigin [js "https://a.example"; js "https://b.example"] /\
  allowedOrigins (Some (joinComma [js "https://a.example"; js "https://b.example"])) =
    [js "https://a.example"; js "https://b.example"].
Proof.
  split; [exact cleanOrigin_example|].
  exact (allowed_origins_round_trip _ cleanOrigin_example).
Defined.


(** ** Start-up *)

(** X23: the process contacts the database only with a configured,
    non-empty [MONGO_URI], and then with exactly that URI; without one it
    logs the missing variable and exits with code 1, doing nothing else. *)
Theorem connects_only_when_configured h :
  (forall uri, MongooseConnect uri ∈ bootstrap h -> MONGO_URI h = Some uri /\ uri <> [])
  /\ (MONGO_URI h = None \/ MONGO_URI h = Some [] ->
      bootstrap h =
        [ConsoleError "Missing MONGO_URI environment variable."; ProcessExit 1]).
Proof.
  unfold bootstrap, start. split.
  - intros uri. destruct (MONGO_URI h) as [[|c s]|]; cbn.
    + intros Hin. apply list_elem_of_In in Hin. cbn in Hin. intuition discriminate.
    + intros Hin. apply elem_of_cons in Hin as [[= ->] | Hin]; [done|].
      exfalso. destruct (connectFails h); [|destruct (listenResult h)];
        apply list_elem_of_In in Hin; cbn in Hin; intuition discriminate.
    + intros Hin. apply list_elem_of_In in Hin. cbn in Hin. intuition discriminate.
  - by intros [-> | ->].
Qed.

Lemma connects_only_when_configured_witness :
  MongooseConnect (js "mongodb://db/quotes") ∈ bootstrap goodHost /\
  MONGO_URI bareHost = None /\
  bootstrap bareHost =
    [ConsoleError "Missing MONGO_URI environment variable."; ProcessExit 1].
Proof.
  assert (H1 : MongooseConnect (js "mongodb://db/quotes") ∈ bootstrap goodHost)
    by (apply list_elem_of_In; vm_compute; tauto).
  assert (H2 : MONGO_URI bareHost = None) by reflexivity.
  split; [exact H1|]. split; [exact H2|].
  exact (proj2 (connects_only_when_configured bareHost) (or_introl H2)).
Defined.

(** The three things start-up needs in order to end with a listening
    server. *)
Lemma bootstrap_cases h :
  ((exists uri, MONGO_URI h = Some uri /\ uri <> [])
   /\ connectFails h = None /\ listenResult h = Listens
   /\ exists uri,
        bootstrap h =
          [MongooseConnect uri; ConsoleLog "Connected to MongoDB";
           AppListen (listenPort h); ServerListening (listenPort h);
           ConsoleLog "Server running on port"])
  \/ (~ ((exists uri, MONGO_URI h = Some uri /\ uri <> [])
         /\ connectFails h = None /\ listenResult h = Listens)
      /\ exitCode (bootstrap h) = Some 1
      /\ forall p, ServerListening p ∉ bootstrap h).
Proof.
  unfold bootstrap, start.
  destruct (MONGO_URI h) as [[|c s]|] eqn:Huri; cbn.
  - right. split; [by intros [(uri & [= <-] & Hne) _]|]. split; [reflexivity|].
    intros p Hin. apply list_elem_of_In in Hin. cbn in Hin. intuition discriminate.
  - destruct (connectFails h) as [e|] eqn:Hc.
    + right. split; [by intros (_ & [=] & _)|]. split; [reflexivity|].
      intros p Hin. apply list_elem_of_In in Hin. cbn in Hin. intuition discriminate.
    + destruct (listenResult h) as [|e|e] eqn:Hl.
      * left. split; [by exists (c :: s)|]. split; [reflexivity|]. split; [reflexivity|].
        by exists (c :: s).
      * right. split; [by intros (_ & _ & [=])|]. split; [reflexivity|].
        intros p Hin. apply list_elem_of_In in Hin. cbn in Hin. intuition discriminate.
      * right. split; [by intros (_ & _ & [=])|]. split; [reflexivity|].
        intros p Hin. apply list_elem_of_In in Hin. cbn in Hin. intuition discriminate.
  - right. split; [by intros [(uri & [=] & _) _]|]. split; [reflexivity|].
    intros p Hin. apply list_elem_of_In in Hin. cbn in Hin. intuition discriminate.
Qed.

(** X24: the server comes to listen exactly when [MONGO_URI] is set and
    non-empty, the connection succeeded, and [app.listen] neither threw
    nor failed afterwards; it then listens on what [app.listen] was
    called with, [PORT], or 10000 when [PORT] is unset or empty, and the
    call comes after the connection attempt. *)
Theorem listens_only_after_connecting h :
  ((exists p, ServerListening p ∈ bootstrap h) <->
   (exists uri, MONGO_URI h = Some uri /\ uri <> [])
   /\ connectFails h = None /\ listenResult h = Listens)
  /\ (forall p, ServerListening p ∈ bootstrap h ->
        p = match PORT h with
            | Some (c :: s) => JStr (c :: s)
            | _ => JNum (js "10000")
            end
        /\ exists uri before after,
             bootstrap h =
               MongooseConnect uri :: before ++ AppListen p :: ServerListening p :: after).
Proof.
  destruct (bootstrap_cases h) as [(Huri & Hc & Hl & uri & Hboot) | (Hnot & _ & Hnone)].
  - split.
    + split; [intros _; by repeat split|]. intros _. exists (listenPort h).
      rewrite Hboot. apply list_elem_of_In. cbn. tauto.
    + intros p Hin. rewrite Hboot in Hin. apply list_elem_of_In in Hin. cbn in Hin.
      assert (Hp : p = listenPort h)
        by (destruct Hin as [Hin | [Hin | [Hin | [Hin | [Hin | []]]]]];
            try discriminate Hin; by injection Hin).
      subst p. split.
      * unfold listenPort. by destruct (PORT h) as [[|c s]|].
      * exists uri, [ConsoleLog "Connected to MongoDB"],
          [ConsoleLog "Server running on port"]. exact Hboot.
  - split.
    + split; [intros [p Hin]; by destruct (Hnone p) | intros H; by destruct Hnot].
    + intros p Hin. by destruct (Hnone p).
Qed.

Lemma listens_only_after_connecting_witness :
  ServerListening (JNum (js "10000")) ∈ bootstrap goodHost /\
  exists uri before after,
    bootstrap goodHost =
      MongooseConnect uri :: before ++ AppListen (JNum (js "10000"))
        :: ServerListening (JNum (js "10000")) :: after.
Proof.
  assert (H : ServerListening (JNum (js "10000")) ∈ bootstrap goodHost)
    by (apply list_elem_of_In; vm_compute; tauto).
  split; [exact H|].
  exact (proj2 (proj2 (listens_only_after_connecting goodHost) (JNum (js "10000")) H)).
Defined.

(** X25: start-up ends the process exactly when [MONGO_URI] is missing,
    the connection fails, [app.listen] throws, or the server emits an
    error nothing handles; the exit code is then 1, never another one;
    and start-up that does not end the process has brought the server to
    listen. *)
Theorem boot_exits_or_serves h :
  (exitCode (bootstrap h) = Some 1 <->
   ~ ((exists uri, MONGO_URI h = Some uri /\ uri <> [])
      /\ connectFails h = None /\ listenResult h = Listens))
  /\ (forall code, exitCode (bootstrap h) = Some code -> code = 1)
  /\ (exitCode (bootstrap h) = None <-> exists p, ServerListening p ∈ bootstrap h).
Proof.
  destruct (bootstrap_cases h) as [(Huri & Hc & Hl & uri & Hboot) | (Hnot & Hexit & Hnone)].
  - rewrite Hboot. cbn. split; [|split].
    + split; [discriminate | intros H; by destruct H].
    + discriminate.
    + split; [|reflexivity]. intros _. exists (listenPort h).
      apply list_elem_of_In. cbn. tauto.
  - rewrite Hexit. split; [|split].
    + by split.
    + by intros code [= <-].
    + split; [discriminate | intros [p Hin]; by destruct (Hnone p)].
Qed.

Lemma boot_exits_or_serves_witness :
  ~ ((exists uri, MONGO_URI busyPortHost = Some uri /\ uri <> [])
     /\ connectFails busyPortHost = None /\ listenResult busyPortHost = Listens) /\
  exitCode (bootstrap busyPortHost) = Some 1.
Proof.
  assert (H : ~ ((exists uri, MONGO_URI busyPortHost = Some uri /\ uri <> [])
                 /\ connectFails busyPortHost = None /\ listenResult busyPortHost = Listens))
    by (intros (_ & _ & Hl); discriminate Hl).
  split; [exact H|].
  exact (proj2 (proj1 (boot_exits_or_serves busyPortHost)) H).
Defined.
